(** * Agentic-Core: the coordination kernel

    A shallow embedding of the three modules under [Core-Agents/Base]:
    - [event_bus.py]     : [EventBus] ([subscribe], [publish], [get_history]);
    - [base_agent.py]    : [BaseAgent] ([start], [stop], [handle_message], ...);
    - [agent_factory.py] : [AgentFactory] ([create_agent], [create_agent_team]).

    The Python code is asynchronous but runs on one cooperative scheduler and
    every [await] in these modules is awaited immediately, so a coroutine is
    modelled as a function from the world before the call to its outcome.
    Console output ([print]) is not part of the model. *)

From Stdlib Require Import ZArith Lia.
From stdpp Require Import base option list strings pretty gmap.

Local Open Scope string_scope.
Local Open Scope list_scope.
Local Open Scope nat_scope.

(** ** Python values and exceptions *)

(** The configuration values the factory looks at ([config.get("type")],
    [config.get("agent_id", ...)]): what [json.load] gives, that is [None],
    strings, integers, booleans, lists and dicts.  A float is hashable and
    is no key of the registry, so the factory treats it as it treats an
    integer; floats are left out. *)
#[warnings="-register-all"] Inductive PyVal :=
  | PNone
  | PStr (s : string)
  | PNum (z : Z)
  | PBool (b : bool)
  | PList (items : list PyVal)
  | PDict (items : list (string * PyVal)).

#[global] Instance PyVal_eq_dec : EqDecision PyVal.
Proof.
  refine (fix go (x y : PyVal) {struct x} : Decision (x = y) :=
    let _ : EqDecision PyVal := @go in
    match x, y with
    | PNone, PNone => left _
    | PStr s1, PStr s2 => cast_if (decide (s1 = s2))
    | PNum z1, PNum z2 => cast_if (decide (z1 = z2))
    | PBool b1, PBool b2 => cast_if (decide (b1 = b2))
    | PList l1, PList l2 => cast_if (decide (l1 = l2))
    | PDict l1, PDict l2 => cast_if (decide (l1 = l2))
    | _, _ => right _
    end); abstract congruence.
Defined.

(** Python truthiness, as used by [if not agent_type:]. *)
Definition py_truthy (v : PyVal) : bool :=
  match v with
  | PNone => false
  | PStr s => negb (bool_decide (s = ""))
  | PNum z => negb (bool_decide (z = 0%Z))
  | PBool b => b
  | PList [] | PDict [] => false
  | PList (_ :: _) | PDict (_ :: _) => true
  end.

(** [repr(v)]; the quotes of a string are given without Python's escapes. *)
Fixpoint py_repr (v : PyVal) : string :=
  match v with
  | PNone => "None"
  | PStr s => "'" +:+ s +:+ "'"
  | PNum z => pretty z
  | PBool true => "True"
  | PBool false => "False"
  | PList items => "[" +:+ String.concat ", " (map py_repr items) +:+ "]"
  | PDict items =>
      "{" +:+ String.concat ", "
                (map (λ kv, match kv with (k, v) => "'" +:+ k +:+ "': " +:+ py_repr v end)
                     items)
          +:+ "}"
  end.

(** [str(v)], what an f-string puts in place of [{v}]. *)
Definition py_str (v : PyVal) : string :=
  match v with
  | PNone => "None"
  | PStr s => s
  | PNum z => pretty z
  | PBool true => "True"
  | PBool false => "False"
  | PList _ | PDict _ => py_repr v
  end.

(** The values that cannot be hashed, and so cannot be looked up in a dict
    or a set, with the name of their type. *)
Definition unhashable_type (v : PyVal) : option string :=
  match v with
  | PList _ => Some "list"
  | PDict _ => Some "dict"
  | _ => None
  end.

(** Truthiness of an [Optional[str]] argument, as used by [if topic:]. *)
Definition topic_given (topic : option string) : bool :=
  match topic with
  | None => false
  | Some t => negb (bool_decide (t = ""))
  end.

(** Raised objects.  [except Exception] catches the instances of
    [Exception]; [KeyboardInterrupt], [SystemExit] and
    [asyncio.CancelledError] derive from [BaseException] only. *)
Inductive PyExn :=
  | ValueError (msg : string)
  | OtherException (cls msg : string)
  | NonException (cls : string).

Definition is_Exception (e : PyExn) : bool :=
  match e with
  | ValueError _ | OtherException _ _ => true
  | NonException _ => false
  end.

(** [l[start:]] on a Python list. *)
Definition py_slice_from {A} (start : Z) (l : list A) : list A :=
  let n := Z.of_nat (length l) in
  let s := if (start <? 0)%Z then Z.max 0 (n + start) else Z.min n start in
  drop (Z.to_nat s) l.


(** [d[k] = v] on an insertion-ordered dict. *)
Fixpoint dict_set {V} (k : string) (v : V) (d : list (string * V)) : list (string * V) :=
  match d with
  | [] => [(k, v)]
  | (k', v') :: d' =>
      if decide (k' = k) then (k, v) :: d' else (k', v') :: dict_set k v d'
  end.

Fixpoint dict_get {V} (k : string) (d : list (string * V)) : option V :=
  match d with
  | [] => None
  | (k', v) :: d' => if decide (k' = k) then Some v else dict_get k d'
  end.

(** ** The world *)

(** Agent objects are referred to by address; a subscriber is either a plain
    coroutine function or the bound method [agent.handle_message]. *)
Definition AgentRef := nat.

Inductive Callback :=
  | Coroutine (f : nat)
  | HandleMessage (a : AgentRef).

#[global] Instance Callback_eq_dec : EqDecision Callback.
Proof. solve_decision. Defined.

(** The fields [BaseAgent.__init__] sets. *)
Record Agent := {
  agent_id : string;
  is_running : bool;
  subscriptions : list string;
  start_time : option string
}.

(** The classes the factory knows. *)
Inductive AgentClass :=
  | ArchitectAgent
  | CodeGeneratorAgent
  | QAAgent
  | DocumentationAgent
  | CustomAgent (n : nat).

Section Model.

(** [Payload] is the published [message: Any]; [User] is whatever state the
    concrete agents and plain subscribers keep besides the fields below. *)
Context {Payload User : Type}.

(** [msg_data], the dict [publish] builds.  None of the three modules
    writes to it once it is built, so it is a value here; a subscriber
    writing to the dict it was handed is outside the model. *)
Record Envelope := {
  timestamp : string;
  topic : string;
  source : string;
  message : Payload
}.

Record World := {
  subscribers : gmap string (list Callback);
  message_history : list Envelope;
  agents : AgentRef → Agent;
  user : User
}.

(** What the modelled code does, in order: the bus awaiting a subscriber,
    [BaseAgent] awaiting one of its hooks, the factory calling a class. *)
Inductive Event :=
  | Delivered (callback : Callback) (msg_data : Envelope)
  | SetupSubscriptions (a : AgentRef)
  | OnStart (a : AgentRef)
  | OnStop (a : AgentRef)
  | ProcessMessage (a : AgentRef) (msg_data : Envelope)
  | OnError (a : AgentRef) (error : PyExn) (msg_data : Envelope)
  | Instantiate (cls : AgentClass) (id : PyVal) (config : option (gmap string PyVal)).

(** How a call ends: it returns, it raises, or it never completes (a hung
    coroutine, or a loop that outlives its fuel). *)
Inductive Outcome (A : Type) :=
  | Returned (x : A) (w : World)
  | Raised (e : PyExn) (w : World)
  | Pending.
#[global] Arguments Returned {A} x w.
#[global] Arguments Raised {A} e w.
#[global] Arguments Pending {A}.

Definition M (A : Type) : Type := World → list Event * Outcome A.

Definition ret {A} (x : A) : M A := λ w, ([], Returned x w).

Definition raise {A} (e : PyExn) : M A := λ w, ([], Raised e w).

Definition bind {A B} (m : M A) (k : A → M B) : M B := λ w,
  match m w with
  | (t, Returned x w') => let '(t', o) := k x w' in (t ++ t', o)
  | (t, Raised e w') => (t, Raised e w')
  | (t, Pending) => (t, Pending)
  end.

(** [try: body / except Exception as e: handler(e)]. *)
Definition try_except {A} (body : M A) (handler : PyExn → M A) : M A := λ w,
  match body w with
  | (t, Raised e w') =>
      if is_Exception e
      then let '(t', o) := handler e w' in (t ++ t', o)
      else (t, Raised e w')
  | r => r
  end.

(** Awaiting code that lives outside the three modules. *)
Definition hook {A} (ev : Event) (h : World → Outcome A) : M A := λ w, ([ev], h w).

Definition get {A} (f : World → A) : M A := λ w, ([], Returned (f w) w).

Definition modify (f : World → World) : M unit := λ w, ([], Returned tt (f w)).

#[global] Instance M_ret : MRet M := @ret.
#[global] Instance M_bind : MBind M := λ A B k m, bind m k.

(** The abstract methods of [BaseAgent], dispatched on the receiving object,
    the plain coroutines subscribed to the bus, the constructors of the
    classes the factory instantiates, and two built-ins:
    [datetime.now().isoformat()] and the [repr] of a list of strings. *)
Class Runtime := {
  now : World → string;
  repr_keys : list string → string;
  coroutine : nat → Envelope → World → Outcome unit;
  setup_subscriptions : AgentRef → World → Outcome unit;
  process_message : AgentRef → Envelope → World → Outcome unit;
  on_start : AgentRef → World → Outcome unit;
  on_stop : AgentRef → World → Outcome unit;
  on_error : AgentRef → PyExn → Envelope → World → Outcome unit;
  construct : AgentClass → PyVal → option (gmap string PyVal) → World → Outcome AgentRef
}.

(** [BaseAgent.on_error], the default a subclass may override: it prints. *)
Definition BaseAgent_on_error (a : AgentRef) (error : PyExn) (msg_data : Envelope)
    (w : World) : Outcome unit :=
  Returned tt w.

Context `{!Runtime}.

(** Field updates. *)
Definition set_subscribers (s : gmap string (list Callback)) (w : World) : World :=
  {| subscribers := s; message_history := message_history w;
     agents := agents w; user := user w |}.

Definition append_history (msg_data : Envelope) (w : World) : World :=
  {| subscribers := subscribers w; message_history := message_history w ++ [msg_data];
     agents := agents w; user := user w |}.

Definition set_agent (a : AgentRef) (ag : Agent) (w : World) : World :=
  {| subscribers := subscribers w; message_history := message_history w;
     agents := λ b, if decide (b = a) then ag else agents w b; user := user w |}.

Definition set_is_running (b : bool) (ag : Agent) : Agent :=
  {| agent_id := agent_id ag; is_running := b;
     subscriptions := subscriptions ag; start_time := start_time ag |}.

Definition set_start_time (t : option string) (ag : Agent) : Agent :=
  {| agent_id := agent_id ag; is_running := is_running ag;
     subscriptions := subscriptions ag; start_time := t |}.

Definition set_subscriptions (l : list string) (ag : Agent) : Agent :=
  {| agent_id := agent_id ag; is_running := is_running ag;
     subscriptions := l; start_time := start_time ag |}.

(** [self.<field> = ...] on the agent at [a]. *)
Definition update_agent (a : AgentRef) (f : Agent → Agent) : M unit :=
  modify (λ w, set_agent a (f (agents w a)) w).

(** *** base_agent.py, the dispatch wrapper *)

(** [BaseAgent.handle_message]. *)
Definition handle_message (a : AgentRef) (msg_data : Envelope) : M unit :=
  try_except
    (self ← get (λ w, agents w a);
     if decide (source msg_data = agent_id self) then mret tt
     else hook (ProcessMessage a msg_data) (process_message a msg_data))
    (λ e, hook (OnError a e msg_data) (on_error a e msg_data)).

(** *** event_bus.py *)

(** [EventBus.subscribe]. *)
Definition subscribe (topic : string) (callback : Callback) : M bool :=
  subs ← get subscribers;
  modify (set_subscribers
            (match subs !! topic with
             | None => <[topic := []]> subs
             | Some _ => subs
             end));;
  modify (λ w, set_subscribers (alter (λ l, l ++ [callback]) topic (subscribers w)) w);;
  mret true.

(** [await callback(msg_data)]: the bus calls whatever object was
    subscribed. *)
Definition invoke (callback : Callback) (msg_data : Envelope) : M unit :=
  match callback with
  | Coroutine f => hook (Delivered callback msg_data) (coroutine f msg_data)
  | HandleMessage a =>
      hook (Delivered callback msg_data) (Returned tt);; handle_message a msg_data
  end.

(** [for callback in self.subscribers[topic]: await callback(msg_data)].
    A Python list iterator keeps an index into the live list, so what a
    callback appends to the list during delivery is visited too; [i] is
    that index and [fuel] bounds the number of deliveries.  The list object
    is the one stored under the topic: [subscribe] appends to it in place
    and nothing rebinds the entry. *)
Fixpoint deliver (fuel : nat) (topic : string) (msg_data : Envelope) (i : nat) : M unit :=
  λ w,
    match subscribers w !! topic ≫= (.!! i) with
    | None => ([], Returned tt w)
    | Some callback =>
        match fuel with
        | O => ([], Pending)
        | S fuel' =>
            (invoke callback msg_data;; deliver fuel' topic msg_data (S i)) w
        end
    end.

(** [EventBus.publish]. *)
Definition publish (fuel : nat) (topic : string) (message : Payload) (source : string)
    : M Envelope :=
  ts ← get now;
  let msg_data := Build_Envelope ts topic source message in
  modify (append_history msg_data);;
  subs ← get subscribers;
  (if decide (is_Some (subs !! topic)) then deliver fuel topic msg_data 0 else mret tt);;
  mret msg_data.

(** [m["topic"] == topic]. *)
Definition topic_is (t : option string) (m : Envelope) : Prop := Some (topic m) = t.

#[global] Instance topic_is_dec t m : Decision (topic_is t m).
Proof. unfold topic_is. apply _. Defined.

(** [EventBus.get_history]; the defaults are [topic=None], [limit=10]. *)
Definition get_history (topic : option string) (limit : Z) (w : World) : list Envelope :=
  let history := message_history w in
  let history := if topic_given topic then filter (topic_is topic) history else history in
  py_slice_from (- limit) history.

(** *** base_agent.py *)

(** [BaseAgent.__init__], building the object at address [a]. *)
Definition BaseAgent_init (a : AgentRef) (agent_id : string) : M unit :=
  update_agent a (λ _, Build_Agent agent_id false [] None).

(** [BaseAgent.start]. *)
Definition start (a : AgentRef) : M unit :=
  self ← get (λ w, agents w a);
  if is_running self then mret tt
  else
    update_agent a (set_is_running true);;
    t ← get now;
    update_agent a (set_start_time (Some t));;
    hook (SetupSubscriptions a) (setup_subscriptions a);;
    hook (OnStart a) (on_start a).

(** [BaseAgent.stop]. *)
Definition stop (a : AgentRef) : M unit :=
  self ← get (λ w, agents w a);
  if negb (is_running self) then mret tt
  else
    update_agent a (set_is_running false);;
    hook (OnStop a) (on_stop a);;
    update_agent a (set_subscriptions []).

(** [BaseAgent.publish_message]. *)
Definition publish_message (fuel : nat) (a : AgentRef) (topic : string) (message : Payload)
    : M unit :=
  self ← get (λ w, agents w a);
  publish fuel topic message (agent_id self);;
  mret tt.

(** [BaseAgent.subscribe_to_topic]. *)
Definition subscribe_to_topic (a : AgentRef) (topic : string) : M unit :=
  subscribe topic (HandleMessage a);;
  update_agent a (λ self, set_subscriptions (subscriptions self ++ [topic]) self).

(** *** agent_factory.py *)

(** [self.registered_agents], a dict in insertion order. *)
Record AgentFactory := {
  registered_agents : list (string * AgentClass)
}.

(** [AgentFactory.__init__] with [_register_core_agents]. *)
Definition AgentFactory_init : AgentFactory :=
  {| registered_agents :=
       dict_set "docs" DocumentationAgent
         (dict_set "qa" QAAgent
            (dict_set "codegen" CodeGeneratorAgent
               (dict_set "architect" ArchitectAgent []))) |}.

(** [AgentFactory.register_agent]; every [AgentClass] derives from
    [BaseAgent]. *)
Definition register_agent (agent_name : string) (agent_class : AgentClass)
    (self : AgentFactory) : AgentFactory :=
  {| registered_agents := dict_set agent_name agent_class (registered_agents self) |}.

(** [self.registered_agents.get(agent_type)]: the keys are strings. *)
Definition registered (self : AgentFactory) (agent_type : PyVal) : option AgentClass :=
  match agent_type with
  | PStr s => dict_get s (registered_agents self)
  | _ => None
  end.

(** [AgentFactory.list_available_agents]. *)
Definition list_available_agents (self : AgentFactory) : list string :=
  (registered_agents self).*1.

(** [AgentFactory.create_agent]. *)
Definition create_agent (self : AgentFactory) (agent_type : PyVal)
    (config : gmap string PyVal) : M AgentRef :=
  match unhashable_type agent_type with
  | Some type_name =>
      (* [agent_type not in self.registered_agents] hashes [agent_type];
         the message is the one CPython gives up to version 3.13 *)
      raise (OtherException "TypeError" ("unhashable type: '" +:+ type_name +:+ "'"))
  | None =>
      match registered self agent_type with
      | None =>
          raise (ValueError ("Unknown agent type: " +:+ py_str agent_type +:+ ". " +:+
                             "Available types: " +:+ repr_keys (list_available_agents self)))
      | Some agent_class =>
          let agent_id :=
            default (PStr (py_str agent_type +:+ "_agent")) (config !! "agent_id") in
          if bool_decide (agent_type ∈ [PStr "qa"; PStr "docs"])
          then hook (Instantiate agent_class agent_id (Some config))
                    (construct agent_class agent_id (Some config))
          else hook (Instantiate agent_class agent_id None)
                    (construct agent_class agent_id None)
      end
  end.



(** *** The three operations of the bus, as one type *)

Inductive BusOp :=
  | OpSubscribe (topic : string) (callback : Callback)
  | OpPublish (topic : string) (message : Payload) (source : string)
  | OpGetHistory (topic : option string) (limit : Z).

Definition run_op (fuel : nat) (op : BusOp) : M unit :=
  match op with
  | OpSubscribe topic callback => subscribe topic callback;; mret tt
  | OpPublish topic message source => publish fuel topic message source;; mret tt
  | OpGetHistory topic limit => get (get_history topic limit);; mret tt
  end.

(** *** Reading the event log and comparing worlds *)

(** The envelopes an agent's [process_message] was awaited with. *)
Definition processed (a : AgentRef) (t : list Event) : list Envelope :=
  omap (λ ev, match ev with
              | ProcessMessage b m => if decide (b = a) then Some m else None
              | _ => None
              end) t.

(** The subscribers the bus awaited, with the envelope each was given. *)
Definition deliveries (t : list Event) : list (Callback * Envelope) :=
  omap (λ ev, match ev with
              | Delivered callback m => Some (callback, m)
              | _ => None
              end) t.

(** Awaiting the callbacks of a fixed list one after the other, each on the
    world the one before it left. *)
Fixpoint run_in_order (l : list Callback) (msg_data : Envelope) : M unit :=
  match l with
  | [] => mret tt
  | callback :: l' => invoke callback msg_data;; run_in_order l' msg_data
  end.

(** [subscribe(topic, s)] for each [s] of [l], in that order. *)
Fixpoint subscribe_all (topic : string) (l : list Callback) : M unit :=
  match l with
  | [] => mret tt
  | callback :: l' => subscribe topic callback;; subscribe_all topic l'
  end.

(** The subscribers of a topic, none when the topic has no entry. *)
Definition subscribers_of (topic : string) (w : World) : list Callback :=
  default [] (subscribers w !! topic).

(** [w'] extends [w]: the history and every subscriber list of [w] are
    still there, in place, and only grew at the end. *)
Definition extends (w w' : World) : Prop :=
  message_history w `prefix_of` message_history w'
  ∧ ∀ topic, (is_Some (subscribers w !! topic) → is_Some (subscribers w' !! topic))
             ∧ subscribers_of topic w `prefix_of` subscribers_of topic w'.

(** What [config.get("type")] gives, and the entries of a team
    configuration that [create_agent_team] gets past: the type is truthy
    and registered. *)
Definition requested_type (config : gmap string PyVal) : PyVal :=
  default PNone (config !! "type").

Definition constructible (self : AgentFactory) (config : gmap string PyVal) : Prop :=
  py_truthy (requested_type config) = true
  ∧ is_Some (registered self (requested_type config)).

(** The world a call leaves, when it ends. *)
Definition final_world {A} (o : Outcome A) : option World :=
  match o with
  | Returned _ w | Raised _ w => Some w
  | Pending => None
  end.

End Model.

(** ** The rest of the factory and the subscriptions of the concrete agents *)

(** A project configuration, the dict [load_project_config] returns: its
    keys ["agents"], ["common"] and ["custom_agents"], each absent or a
    dict. *)
Record ProjectConfig := {
  cfg_agents : option (gmap string (gmap string PyVal));
  cfg_common : option (gmap string PyVal);
  cfg_custom_agents : option (list (string * gmap string PyVal))
}.

(** How often a topic occurs in a list of topics. *)
Definition occurrences (topic : string) (topics : list string) : nat :=
  length (filter (λ t, t = topic) topics).

Section Subclasses.

Context {Payload User : Type} `{!@Runtime Payload User}.

Local Abbreviation World := (@World Payload User).
Local Abbreviation Event := (@Event Payload).
Local Abbreviation Outcome := (@Outcome Payload User).
Local Abbreviation M := (@M Payload User).

(** [self.subscribe_to_topic(t)] for each [t], in that order: the body of
    every [setup_subscriptions] below. *)
Fixpoint subscribe_to_topics (a : AgentRef) (topics : list string) : M unit :=
  match topics with
  | [] => mret tt
  | topic :: topics' => subscribe_to_topic a topic;; subscribe_to_topics a topics'
  end.

(** [ArchitectAgent.setup_subscriptions]. *)
Definition ArchitectAgent_setup_subscriptions (a : AgentRef) : M unit :=
  subscribe_to_topics a
    ["system.requirements_changed"; "development.feedback";
     "performance.metrics"; "code.review_request"].

(** [CodeGeneratorAgent.setup_subscriptions]. *)
Definition CodeGeneratorAgent_setup_subscriptions (a : AgentRef) : M unit :=
  subscribe_to_topics a
    ["architecture.spec_generated"; "development.generation_request";
     "code.template_request"; "quality.standards_updated"].

(** [QAAgent.setup_subscriptions]. *)
Definition QAAgent_setup_subscriptions (a : AgentRef) : M unit :=
  subscribe_to_topics a
    ["code.generated"; "code.review_request"; "test.run_request";
     "quality.check_request"].

(** [DocumentationAgent.setup_subscriptions]. *)
Definition DocumentationAgent_setup_subscriptions (a : AgentRef) : M unit :=
  subscribe_to_topics a
    ["code.generated"; "architecture.spec_generated"; "test.results";
     "docs.generate_request"; "docs.update_request"].

Definition set_user (u : User) (w : World) : World :=
  {| subscribers := subscribers w; message_history := message_history w;
     agents := agents w; user := u |}.

(** [QAAgent.__init__]: the constructor of [BaseAgent], the attributes of
    the QA agent (logger, languages, timeout, threshold, frameworks), which
    live in the user state and are given by [attributes], and three
    subscriptions. *)
Definition QAAgent_init (attributes : AgentRef → option (gmap string PyVal) → User → User)
    (a : AgentRef) (agent_id : string) (config : option (gmap string PyVal)) : M unit :=
  BaseAgent_init a agent_id;;
  modify (λ w, set_user (attributes a config (user w)) w);;
  subscribe_to_topics a ["code.generated"; "qa.run_tests"; "qa.generate_tests"].

(** The loop of [AgentFactory.create_core_agents] over [core_agent_types];
    [{**common, **agent_config}] keeps the agent's value where both have
    the key. *)
Fixpoint create_core_agents_loop (self : AgentFactory) (project_config : ProjectConfig)
    (core_agent_types : list string) (agents : list (string * AgentRef))
    : M (list (string * AgentRef)) :=
  match core_agent_types with
  | [] => mret agents
  | agent_type :: core_agent_types' =>
      let agent_config := default ∅ (default ∅ (cfg_agents project_config) !! agent_type) in
      let merged_config := agent_config ∪ default ∅ (cfg_common project_config) in
      agent ← create_agent self (PStr agent_type) merged_config;
      create_core_agents_loop self project_config core_agent_types'
        (dict_set agent_type agent agents)
  end.

(** [AgentFactory.create_core_agents]. *)
Definition create_core_agents (self : AgentFactory) (project_config : ProjectConfig)
    : M (list (string * AgentRef)) :=
  create_core_agents_loop self project_config ["architect"; "codegen"; "qa"; "docs"] [].

(** The loop of [AgentFactory.create_project_agents] over
    [custom_agents.items()]. *)
Fixpoint create_custom_agents_loop (self : AgentFactory) (project_config : ProjectConfig)
    (items : list (string * gmap string PyVal)) (agents : list (string * AgentRef))
    : M (list (string * AgentRef)) :=
  match items with
  | [] => mret agents
  | (agent_name, agent_config) :: items' =>
      let agent_type := default PNone (agent_config !! "type") in
      if negb (py_truthy agent_type)
      then raise (ValueError ("Custom agent '" +:+ agent_name +:+ "' missing 'type' field"))
      else
        let merged_config := agent_config ∪ default ∅ (cfg_common project_config) in
        agent ← create_agent self agent_type merged_config;
        create_custom_agents_loop self project_config items'
          (dict_set agent_name agent agents)
  end.

(** [AgentFactory.create_project_agents].  Reading and parsing the file is
    [load_project_config], which returns the configuration or raises
    ([FileNotFoundError], [json.JSONDecodeError]). *)
Definition create_project_agents
    (load_project_config : string → World → Outcome ProjectConfig)
    (self : AgentFactory) (project_name : string) : M (list (string * AgentRef)) :=
  project_config ← (λ w, ([], load_project_config project_name w));
  agents ← create_core_agents self project_config;
  create_custom_agents_loop self project_config
    (default [] (cfg_custom_agents project_config)) agents.

(** The configuration [create_core_agents] hands to [create_agent] for a
    core type, and the identifier [create_agent] derives from it. *)
Definition core_config (project_config : ProjectConfig) (agent_type : string)
    : gmap string PyVal :=
  default ∅ (default ∅ (cfg_agents project_config) !! agent_type)
  ∪ default ∅ (cfg_common project_config).

Definition core_id (project_config : ProjectConfig) (agent_type : string) : PyVal :=
  default (PStr (agent_type +:+ "_agent")) (core_config project_config agent_type !! "agent_id").

(** The configurations the factory handed to the constructors. *)
Definition instantiated_configs (t : list Event) : list (option (gmap string PyVal)) :=
  omap (λ ev, match ev with Instantiate _ _ config => Some config | _ => None end) t.

(** The classes the factory called. *)
Definition instantiated_classes (t : list Event) : list AgentClass :=
  omap (λ ev, match ev with Instantiate cls _ _ => Some cls | _ => None end) t.

(** How a subscriber ends when it is awaited with an envelope: a plain
    coroutine as the coroutine does, a bound method as [handle_message]
    does. *)
Definition callback_outcome (callback : Callback) (msg_data : @Envelope Payload)
    (w : World) : Outcome unit :=
  match callback with
  | Coroutine f => coroutine f msg_data w
  | HandleMessage a => (handle_message a msg_data w).2
  end.

(** The world left by the subscribers of a list, each awaited on the world
    the one before it left; none, if one of them does not return. *)
Fixpoint served_in_order (l : list Callback) (msg_data : @Envelope Payload) (w : World)
    : option World :=
  match l with
  | [] => Some w
  | callback :: l' =>
      match callback_outcome callback msg_data w with
      | Returned _ w' => served_in_order l' msg_data w'
      | _ => None
      end
  end.


(** The identifiers the factory handed to the constructors. *)
Definition instantiated_ids (t : list Event) : list PyVal :=
  omap (λ ev, match ev with Instantiate _ id _ => Some id | _ => None end) t.

End Subclasses.

(** ** A concrete system

    Payloads are strings and the extra state is the log of the coroutines
    and [process_message] hooks that ran, oldest first.  Coroutine 13 fails
    after logging; agent 7's [process_message] raises a [KeyError] and agent
    8's is cancelled while it runs; [setup_subscriptions] subscribes the
    agent to the topic ["x"]; [on_error] is the one [BaseAgent] provides. *)

Definition log_call (n : nat) (w : @World string (list nat)) : @World string (list nat) :=
  {| subscribers := subscribers w; message_history := message_history w;
     agents := agents w; user := user w ++ [n] |}.

Definition outcome_of {A} (r : list (@Event string) * @Outcome string (list nat) A)
    : @Outcome string (list nat) A :=
  r.2.

Definition class_address (cls : AgentClass) : AgentRef :=
  match cls with
  | ArchitectAgent => 0
  | CodeGeneratorAgent => 1
  | QAAgent => 2
  | DocumentationAgent => 3
  | CustomAgent n => 4 + n
  end.

Definition demo_repr_keys (keys : list string) : string :=
  "[" +:+ String.concat ", " ((λ k, "'" +:+ k +:+ "'") <$> keys) +:+ "]".

#[global] Instance demo : @Runtime string (list nat) := {|
  now := λ _, "2025-01-01T00:00:00";
  repr_keys := demo_repr_keys;
  coroutine := λ f _ w,
    if decide (f = 13) then Raised (OtherException "RuntimeError" "boom") (log_call f w)
    else Returned tt (log_call f w);
  setup_subscriptions := λ a w, outcome_of (subscribe_to_topic a "x" w);
  process_message := λ a _ w,
    if decide (a = 7) then Raised (OtherException "KeyError" "v") w
    else if decide (a = 8) then Raised (NonException "CancelledError") w
    else Returned tt (log_call (100 + a) w);
  on_start := λ _ w, Returned tt w;
  on_stop := λ _ w, Returned tt w;
  on_error := BaseAgent_on_error;
  construct := λ cls id _ w,
    outcome_of ((BaseAgent_init (class_address cls) (py_str id);; mret (class_address cls)) w)
|}.

(** No subscribers, no messages; every address holds an agent named
    ["idle"] that was never started. *)
Definition demo_world : @World string (list nat) :=
  {| subscribers := ∅; message_history := [];
     agents := λ _, Build_Agent "idle" false [] None; user := [] |}.

Definition demo_env (topic source message : string) : @Envelope string :=
  Build_Envelope "2025-01-01T00:00:00" topic source message.

(** Three coroutines subscribed to ["x"], the second being the one that
    fails. *)
Definition demo_world3 : @World string (list nat) :=
  set_subscribers {[ "x" := [Coroutine 1; Coroutine 13; Coroutine 2] ]} demo_world.

(** A world whose history holds two messages, on ["x"] and on ["y"]. *)
Definition demo_world2 : @World string (list nat) :=
  append_history (demo_env "y" "b" "second")
    (append_history (demo_env "x" "a" "first") demo_world).

(** A second system.  Coroutine 21 subscribes coroutine 22 to ["x"] while
    it is being served; coroutine 30 subscribes itself to ["loop"] again each
    time it runs; the others log their number.  Agent 0 is an architect and
    agent 2 a QA agent, as far as their subscriptions go; the remaining hooks
    do nothing. *)
Definition demo2 : @Runtime string (list nat) := {|
  now := λ _, "2025-01-01T00:00:00";
  repr_keys := demo_repr_keys;
  coroutine := λ f _ w,
    if decide (f = 21) then outcome_of ((subscribe "x" (Coroutine 22);; mret tt) (log_call f w))
    else if decide (f = 30)
         then outcome_of ((subscribe "loop" (Coroutine 30);; mret tt) (log_call f w))
         else Returned tt (log_call f w);
  setup_subscriptions := λ a w,
    if decide (a = 2) then outcome_of (@QAAgent_setup_subscriptions _ _ a w)
    else outcome_of (@ArchitectAgent_setup_subscriptions _ _ a w);
  process_message := λ a _ w, Returned tt (log_call (100 + a) w);
  on_start := λ _ w, Returned tt w;
  on_stop := λ _ w, Returned tt w;
  on_error := BaseAgent_on_error;
  construct := λ cls id _ w,
    outcome_of ((BaseAgent_init (class_address cls) (py_str id);; mret (class_address cls)) w)
|}.

(** Coroutine 21 alone on ["x"], and coroutine 30 alone on ["loop"]. *)
Definition demo_world4 : @World string (list nat) :=
  set_subscribers {[ "x" := [Coroutine 21]; "loop" := [Coroutine 30] ]} demo_world.

(** Two agents with the same identifier, both subscribed to ["x"]. *)
Definition demo_world5 : @World string (list nat) :=
  set_subscribers {[ "x" := [HandleMessage 0; HandleMessage 1] ]} demo_world.

(** An agent that is running and has two subscriptions on record. *)
Definition demo_world6 : @World string (list nat) :=
  set_agent 0 (Build_Agent "idle" true ["x"; "y"] (Some "2025-01-01T00:00:00"))
    (set_subscribers {[ "x" := [HandleMessage 0]; "y" := [HandleMessage 0] ]} demo_world).

(** A system whose [on_stop] and [setup_subscriptions] fail. *)
Definition demo3 : @Runtime string (list nat) := {|
  now := λ _, "2025-01-01T00:00:00";
  repr_keys := demo_repr_keys;
  coroutine := λ f _ w, Returned tt (log_call f w);
  setup_subscriptions := λ _ w, Raised (OtherException "RuntimeError" "no bus") w;
  process_message := λ a _ w, Returned tt (log_call (100 + a) w);
  on_start := λ _ w, Returned tt w;
  on_stop := λ _ w, Raised (OtherException "IOError" "disk full") w;
  on_error := BaseAgent_on_error;
  construct := λ cls id _ w,
    outcome_of ((BaseAgent_init (class_address cls) (py_str id);; mret (class_address cls)) w)
|}.

(** A project whose common block carries an identifier, with one custom
    agent that has no type. *)
Definition demo_project : ProjectConfig :=
  {| cfg_agents := Some {[ "qa" := {[ "test_timeout" := PNum 60 ]} ]};
     cfg_common := Some {[ "agent_id" := PStr "shop"; "test_timeout" := PNum 30 ]};
     cfg_custom_agents := Some [("auditor", {[ "level" := PNum 3 ]})] |}.

(** Agent 7, whose [process_message] fails, and agent 8, who is cancelled,
    each subscribed to a topic ahead of coroutine 2. *)
Definition demo_world7 : @World string (list nat) :=
  set_subscribers {[ "x" := [HandleMessage 7; Coroutine 2];
                     "y" := [HandleMessage 8; Coroutine 2] ]} demo_world.

(** A project with two custom agents, the second without a type. *)
Definition demo_project3 : ProjectConfig :=
  {| cfg_agents := None;
     cfg_common := Some {[ "type" := PStr "docs" ]};
     cfg_custom_agents :=
       Some [("designer", {[ "type" := PStr "architect" ]}); ("auditor", {[ "level" := PNum 3 ]})] |}.

Definition demo_load3 (project_name : string) (w : @World string (list nat))
    : @Outcome string (list nat) ProjectConfig :=
  if decide (project_name = "depot") then Returned demo_project3 w
  else Raised (OtherException "FileNotFoundError"
                 ("Project config not found: projects/" +:+ project_name +:+ "/config.json")) w.

(** A project whose custom agent takes the name of a core agent. *)
Definition demo_project2 : ProjectConfig :=
  {| cfg_agents := None;
     cfg_common := None;
     cfg_custom_agents := Some [("qa", {[ "type" := PStr "architect" ]})] |}.

(** The file system: two projects, and nothing else. *)
Definition demo_load (project_name : string) (w : @World string (list nat))
    : @Outcome string (list nat) ProjectConfig :=
  if decide (project_name = "shop") then Returned demo_project w
  else if decide (project_name = "lab") then Returned demo_project2 w
  else Raised (OtherException "FileNotFoundError"
                 ("Project config not found: projects/" +:+ project_name +:+ "/config.json")) w.

(** ** Properties *)

Ltac unfold_M :=
  unfold mbind, M_bind, bind, mret, M_ret, ret, raise, get, modify, hook,
    update_agent in *.

Section Properties.

Context {Payload User : Type} `{!@Runtime Payload User}.

Local Abbreviation World := (@World Payload User).
Local Abbreviation Envelope := (@Envelope Payload).
Local Abbreviation Event := (@Event Payload).

Implicit Types (w : World) (msg_data : Envelope) (topic : string).

(** *** Slices *)

Lemma py_slice_from_suffix {A} (start : Z) (l : list A) :
  py_slice_from start l `suffix_of` l.
Proof. unfold py_slice_from. apply suffix_drop. Qed.

Lemma py_slice_from_last {A} (n : Z) (l : list A) :
  (1 ≤ n)%Z → (Z.of_nat (length (py_slice_from (- n) l)) ≤ n)%Z.
Proof.
  intros Hn. unfold py_slice_from.
  destruct (Z.ltb_spec (- n) 0); [|lia].
  rewrite length_drop. lia.
Qed.

Lemma get_history_suffix (t : option string) limit w :
  get_history t limit w `suffix_of`
    (if topic_given t then filter (topic_is t) (message_history w)
     else message_history w).
Proof. unfold get_history. apply py_slice_from_suffix. Qed.

Lemma get_history_sublist (t : option string) limit w :
  get_history t limit w `sublist_of` message_history w.
Proof.
  unfold get_history, py_slice_from.
  etrans; [apply sublist_drop|].
  destruct (topic_given t); [apply sublist_filter | done].
Qed.

(** *** The bus without subscribers *)

Lemma deliver_nobody fuel topic msg_data i w :
  subscribers w !! topic ≫= (.!! i) = None →
  deliver fuel topic msg_data i w = ([], Returned tt w).
Proof. intros E. destruct fuel; simpl; by rewrite E. Qed.

(** C2. On a topic without subscribers [publish] awaits nothing, appends
    the envelope it built from the topic, the source and the payload to the
    history, once, and returns that envelope. *)
Theorem publish_no_subscribers fuel topic (message : Payload) source w :
  subscribers_of topic w = [] →
  let msg_data := Build_Envelope (now w) topic source message in
  publish fuel topic message source w = ([], Returned msg_data (append_history msg_data w))
  ∧ message_history (append_history msg_data w) = message_history w ++ [msg_data]
  ∧ subscribers (append_history msg_data w) = subscribers w.
Proof.
  intros E msg_data. unfold subscribers_of in E. split; [|done].
  unfold publish. unfold_M. simpl. fold msg_data.
  destruct (subscribers w !! topic) as [l|] eqn:El; simpl in *.
  - subst l. rewrite deliver_nobody; [done|]. simpl. by rewrite El.
  - done.
Qed.

(** *** The dispatch wrapper *)

(** C3. [handle_message] awaits [process_message] with the envelope,
    once, unless the envelope's source is the agent's own identifier, and
    then it awaits nothing and changes nothing.  When it does await
    [process_message], it ends as [process_message] ends, except that an
    exception [except Exception] catches is handed to [on_error]. *)
Theorem handle_message_self_suppression (a : AgentRef) msg_data w :
  processed a (handle_message a msg_data w).1
  = (if decide (source msg_data = agent_id (agents w a)) then [] else [msg_data])
  ∧ if decide (source msg_data = agent_id (agents w a))
    then handle_message a msg_data w = ([], Returned tt w)
    else match process_message a msg_data w with
         | Raised e w' =>
             if is_Exception e
             then handle_message a msg_data w
                  = ([ProcessMessage a msg_data; OnError a e msg_data],
                     on_error a e msg_data w')
             else handle_message a msg_data w
                  = ([ProcessMessage a msg_data], Raised e w')
         | o => handle_message a msg_data w = ([ProcessMessage a msg_data], o)
         end.
Proof.
  unfold handle_message, try_except. unfold_M. simpl.
  destruct (decide (source msg_data = agent_id (agents w a))); simpl; [done|].
  destruct (process_message a msg_data w) as [[] w'|e w'|]; simpl;
    try (by rewrite decide_True).
  destruct (is_Exception e); simpl.
  - rewrite decide_True by done. by destruct (on_error a e msg_data w').
  - by rewrite decide_True.
Qed.

(** *** Subscribing *)

Lemma subscribe_spec topic (callback : Callback) w :
  ∃ w', subscribe topic callback w = ([], Returned true w')
        ∧ subscribers w' !! topic = Some (subscribers_of topic w ++ [callback])
        ∧ (∀ topic', topic' ≠ topic → subscribers w' !! topic' = subscribers w !! topic')
        ∧ message_history w' = message_history w
        ∧ agents w' = agents w
        ∧ user w' = user w.
Proof.
  eexists. split; [reflexivity|]. simpl. unfold subscribers_of.
  split; [|split; [|done]].
  - rewrite lookup_alter_eq.
    destruct (subscribers w !! topic) as [l|] eqn:E; simpl.
    + by rewrite E.
    + by rewrite lookup_insert_eq.
  - intros topic' Hne. rewrite lookup_alter_ne by done.
    destruct (subscribers w !! topic); [done|].
    by rewrite lookup_insert_ne.
Qed.

Lemma subscribe_all_spec topic (l : list Callback) w :
  ∃ w', subscribe_all topic l w = ([], Returned tt w')
        ∧ subscribers_of topic w' = subscribers_of topic w ++ l
        ∧ (l ≠ [] → is_Some (subscribers w' !! topic))
        ∧ (l = [] → w' = w)
        ∧ message_history w' = message_history w.
Proof.
  revert w. induction l as [|c l IH]; intros w.
  - exists w. rewrite app_nil_r. by repeat split.
  - destruct (subscribe_spec topic c w) as (w1 & E1 & Hl & _ & Hh & _).
    destruct (IH w1) as (w2 & E2 & Hs & Hsome & Hnil & Hh2).
    exists w2. simpl. unfold_M. rewrite E1, E2. simpl.
    split; [done|]. split; [|split; [|split]].
    + rewrite Hs. unfold subscribers_of at 1. rewrite Hl. simpl.
      by rewrite <- app_assoc.
    + intros _. destruct l as [|c' l'].
      * rewrite Hnil by done. eauto.
      * by apply Hsome.
    + done.
    + congruence.
Qed.

(** *** Delivery *)

(** The bus logs one delivery per callback it awaits, and the dispatch
    wrapper logs none. *)
Lemma deliveries_handle_message (a : AgentRef) msg_data w :
  deliveries (handle_message a msg_data w).1 = [].
Proof.
  unfold handle_message, try_except. unfold_M. simpl.
  destruct (decide (source msg_data = agent_id (agents w a))); simpl; [done|].
  destruct (process_message a msg_data w) as [[] w'|e w'|]; simpl; try done.
  destruct (is_Exception e); simpl; [|done].
  by destruct (on_error a e msg_data w').
Qed.

Lemma deliveries_invoke (c : Callback) msg_data w :
  deliveries (invoke c msg_data w).1 = [(c, msg_data)].
Proof.
  destruct c as [f|a]; simpl; [done|].
  unfold_M. simpl.
  pose proof (deliveries_handle_message a msg_data w) as E.
  destruct (handle_message a msg_data w) as [t o]. simpl in *. by rewrite E.
Qed.

Lemma deliveries_app (t1 t2 : list Event) :
  deliveries (t1 ++ t2) = deliveries t1 ++ deliveries t2.
Proof. unfold deliveries. apply omap_app. Qed.

Lemma deliveries_run_in_order (l : list Callback) msg_data w t (o : Outcome unit) :
  run_in_order l msg_data w = (t, o) →
  deliveries t `prefix_of` ((λ s, (s, msg_data)) <$> l)
  ∧ (∀ w', o = Returned tt w' → deliveries t = (λ s, (s, msg_data)) <$> l).
Proof.
  revert w t o. induction l as [|c l IH]; intros w t o; simpl.
  - unfold_M. intros [= <- <-]. by split.
  - unfold_M. pose proof (deliveries_invoke c msg_data w) as Ec.
    destruct (invoke c msg_data w) as [tc [[] wc|e wc|]]; simpl in *.
    + destruct (run_in_order l msg_data wc) as [tl ol] eqn:El.
      intros [= <- <-]. destruct (IH _ _ _ El) as [Hp Hr].
      rewrite deliveries_app, Ec. simpl. split.
      * by apply prefix_cons.
      * intros w' ->. by rewrite (Hr w').
    + intros [= <- <-]. rewrite Ec. split; [|done].
      apply prefix_cons, prefix_nil.
    + intros [= <- <-]. rewrite Ec. split; [|done].
      apply prefix_cons, prefix_nil.
Qed.

(** As long as the callbacks leave the subscriber list of the topic as it
    is, the loop over the live list is the loop over the list as it was. *)
Lemma deliver_run_in_order topic msg_data (rest : list Callback) :
  ∀ (seen : list Callback) fuel w,
    subscribers w !! topic = Some (seen ++ rest) →
    (∀ c w0 t w1, c ∈ rest → invoke c msg_data w0 = (t, Returned tt w1) →
                  subscribers w1 !! topic = subscribers w0 !! topic) →
    length rest ≤ fuel →
    deliver fuel topic msg_data (length seen) w = run_in_order rest msg_data w.
Proof.
  induction rest as [|c rest IH]; intros seen fuel w Hl Hframe Hfuel.
  - apply deliver_nobody. rewrite Hl. simpl.
    apply lookup_ge_None_2. rewrite app_nil_r. lia.
  - destruct fuel as [|fuel]; [simpl in Hfuel; lia|].
    simpl. rewrite Hl. simpl. rewrite list_lookup_middle by done.
    unfold_M.
    destruct (invoke c msg_data w) as [tc [[] wc|e wc|]] eqn:Ec; try done.
    rewrite <- (IH (seen ++ [c]) fuel wc).
    + by rewrite length_app, Nat.add_1_r.
    + rewrite (Hframe c w tc wc), Hl, <- app_assoc; [done| |done]. set_solver.
    + intros c' w0 t w1 Hin. apply Hframe. set_solver.
    + simpl in Hfuel. lia.
Qed.

Lemma run_in_order_returns (l : list Callback) msg_data :
  (∀ s w, s ∈ l → ∃ t w', invoke s msg_data w = (t, Returned tt w')) →
  ∀ w, ∃ t w', run_in_order l msg_data w = (t, Returned tt w').
Proof.
  induction l as [|c l IH]; intros Hret w; simpl.
  - by exists [], w.
  - destruct (Hret c w) as (tc & wc & Ec); [set_solver|].
    destruct (IH (λ s w Hs, Hret s w (list_elem_of_further _ _ _ Hs)) wc)
      as (tl & wl & El).
    exists (tc ++ tl), wl. unfold_M. by rewrite Ec, El.
Qed.

Lemma invoke_outcome (c : Callback) msg_data w :
  (invoke c msg_data w).2 = callback_outcome c msg_data w.
Proof.
  destruct c as [f|a]; simpl; [done|].
  unfold_M. by destruct (handle_message a msg_data w).
Qed.

Lemma run_in_order_served (l : list Callback) msg_data w t w' :
  run_in_order l msg_data w = (t, Returned tt w') →
  served_in_order l msg_data w = Some w'.
Proof.
  revert w t. induction l as [|c l IH]; intros w t; simpl.
  - unfold_M. by intros [= _ <-].
  - unfold_M. rewrite <- invoke_outcome.
    destruct (invoke c msg_data w) as [tc [[] wc|e wc|]]; simpl; try done.
    destruct (run_in_order l msg_data wc) as [tl ol] eqn:El.
    intros [= _ ->]. by eapply IH.
Qed.

(** C1, for subscribers that complete and leave the topic's subscriber
    list alone. Let [s1..sn] be subscribed to a topic, in that order, and
    let each of them, whenever it is awaited, return and leave the list as
    it is.  Then [publish] on that topic returns; it awaited exactly
    [s1..sn], in that order, with the envelope it built, and the world it
    leaves is the one [s1..sn] make of the world with the envelope in its
    history, each of them starting from what the one before it left. *)
Theorem publish_delivers_in_subscription_order fuel topic (message : Payload) source
    (l : list Callback) (w0 : World) :
  subscribers w0 !! topic = None →
  (∀ s msg_data w, s ∈ l →
     ∃ w', callback_outcome s msg_data w = Returned tt w'
           ∧ subscribers w' !! topic = subscribers w !! topic) →
  length l ≤ fuel →
  ∃ w, subscribe_all topic l w0 = ([], Returned tt w)
    ∧ let msg_data := Build_Envelope (now w) topic source message in
      ∃ t w', publish fuel topic message source w = (t, Returned msg_data w')
        ∧ deliveries t = (λ s, (s, msg_data)) <$> l
        ∧ served_in_order l msg_data (append_history msg_data w) = Some w'
        ∧ run_in_order l msg_data (append_history msg_data w) = (t, Returned tt w').
Proof.
  intros Hnone Hcb Hfuel.
  destruct (subscribe_all_spec topic l w0) as (w & Esub & Hof & Hsome & Hnil & _).
  exists w. split; [done|]. intros msg_data.
  unfold subscribers_of in Hof. rewrite Hnone in Hof. simpl in Hof.
  destruct (run_in_order_returns l msg_data) with (w := append_history msg_data w)
    as (t & w' & Erun).
  { intros s w1 Hs. destruct (Hcb s msg_data w1 Hs) as (w2 & E & _).
    rewrite <- invoke_outcome in E.
    destruct (invoke s msg_data w1) as [t1 o1]. simpl in E. subst o1. eauto. }
  exists t, w'. split; [|split; [|split; [|done]]].
  - unfold publish. unfold_M. simpl. fold msg_data.
    destruct (subscribers w !! topic) as [l'|] eqn:El; simpl in *.
    + subst l'.
      rewrite (deliver_run_in_order topic msg_data l [] fuel); simpl; [|done| |done].
      * rewrite Erun. by rewrite app_nil_r.
      * intros c wa ta wb Hc Ec.
        destruct (Hcb c msg_data wa Hc) as (w2 & E & Hfr).
        rewrite <- invoke_outcome, Ec in E. simpl in E. congruence.
    + destruct l as [|c l]; [|by destruct Hsome as [? ?]].
      simpl in Erun. unfold_M. by injection Erun as <- <-.
  - eapply deliveries_run_in_order; done.
  - by eapply run_in_order_served.
Qed.

(** *** A subscriber that raises *)




(** *** Reading the history *)

(** What holds of C5: for a limit of at least one [get_history] returns
    at most [limit] envelopes, and for every limit they come in the order
    they have in the history. *)
Theorem get_history_limit (t : option string) (limit : Z) w :
  (1 ≤ limit)%Z →
  (Z.of_nat (length (get_history t limit w)) ≤ limit)%Z
  ∧ get_history t limit w `sublist_of` message_history w.
Proof.
  intros Hn. split; [|apply get_history_sublist].
  unfold get_history. by apply py_slice_from_last.
Qed.

(** C6, for a topic other than the empty string. Every envelope
    [get_history] returns for the topic [t] has [t] as its topic. *)
Theorem get_history_topic (t : string) (limit : Z) w (m : Envelope) :
  t ≠ "" →
  m ∈ get_history (Some t) limit w →
  topic m = t.
Proof.
  intros Ht Hm.
  pose proof (get_history_suffix (Some t) limit w) as [k Hk].
  simpl in Hk. rewrite bool_decide_eq_false_2 in Hk by done. simpl in Hk.
  assert (m ∈ filter (topic_is (Some t)) (message_history w)) as Hin.
  { rewrite Hk. set_solver. }
  apply list_elem_of_filter in Hin as [Htop _].
  unfold topic_is in Htop. congruence.
Qed.

(** *** Errors in [process_message] *)

Lemma invoke_starts (c : Callback) msg_data w :
  ∃ t, (invoke c msg_data w).1 = Delivered c msg_data :: t.
Proof.
  destruct c as [f|a]; simpl; [by exists []|].
  unfold_M. destruct (handle_message a msg_data w) as [t o]. by exists t.
Qed.

(** C4, with the exceptions told apart as [except Exception] does. When
    [process_message] raises an instance of [Exception], [handle_message]
    awaits [on_error] with that exception and the envelope, and ends as
    [on_error] ends; when [on_error] returns, as the one of [BaseAgent]
    does, so does [handle_message], and the bus goes on to the next
    subscriber.  Any other exception is not caught: [handle_message] raises
    it without awaiting [on_error], and so does the delivery loop, which
    serves nobody after this agent. *)
Theorem handle_message_routes_errors (a : AgentRef) msg_data w e w1 :
  source msg_data ≠ agent_id (agents w a) →
  process_message a msg_data w = Raised e w1 →
  if is_Exception e
  then
    handle_message a msg_data w
    = ([ProcessMessage a msg_data; OnError a e msg_data], on_error a e msg_data w1)
    ∧ ∀ w2, on_error a e msg_data w1 = Returned tt w2 →
        handle_message a msg_data w
        = ([ProcessMessage a msg_data; OnError a e msg_data], Returned tt w2)
        ∧ ∀ fuel topic i (next : Callback),
            subscribers w !! topic ≫= (.!! i) = Some (HandleMessage a) →
            subscribers w2 !! topic ≫= (.!! S i) = Some next →
            ∃ t o, deliver (S (S fuel)) topic msg_data i w
                   = ([Delivered (HandleMessage a) msg_data; ProcessMessage a msg_data;
                       OnError a e msg_data; Delivered next msg_data] ++ t, o)
  else
    handle_message a msg_data w = ([ProcessMessage a msg_data], Raised e w1)
    ∧ ∀ fuel topic i,
        subscribers w !! topic ≫= (.!! i) = Some (HandleMessage a) →
        deliver (S fuel) topic msg_data i w
        = ([Delivered (HandleMessage a) msg_data; ProcessMessage a msg_data], Raised e w1).
Proof.
  intros Hsrc Hproc. destruct (is_Exception e) eqn:Hexc.
  - assert (handle_message a msg_data w
            = ([ProcessMessage a msg_data; OnError a e msg_data],
               on_error a e msg_data w1)) as Hh.
    { unfold handle_message, try_except. unfold_M. simpl.
      rewrite decide_False by done. simpl. by rewrite Hproc, Hexc. }
    split; [done|]. intros w2 Herr. rewrite Herr in Hh. split; [done|].
    intros fuel topic i next Hi Hnext.
    cbn [deliver]. rewrite Hi. unfold_M. cbn [invoke]. unfold_M. rewrite Hh.
    rewrite Hnext.
    destruct (invoke_starts next msg_data w2) as [tn En].
    destruct (invoke next msg_data w2) as [tn' [[] wn|en wn|]]; simpl in En; subst tn'.
    + destruct (deliver fuel topic msg_data (S (S i)) wn) as [tl ol].
      by exists (tn ++ tl), ol.
    + by exists tn, (Raised en wn).
    + by exists tn, Pending.
  - assert (handle_message a msg_data w = ([ProcessMessage a msg_data], Raised e w1)) as Hh.
    { unfold handle_message, try_except. unfold_M. simpl.
      rewrite decide_False by done. simpl. by rewrite Hproc, Hexc. }
    split; [done|]. intros fuel topic i Hi.
    cbn [deliver]. rewrite Hi. unfold_M. cbn [invoke]. unfold_M. by rewrite Hh.
Qed.

(** *** The lifecycle *)

(** C7, for hooks that complete. Take an agent that is not running.
    [start] marks it as running and records the time, and awaits
    [setup_subscriptions] on the world so marked; let that return, let
    [on_start] return on the world it leaves, and let the agent still be
    marked as running.  Then the first [start] awaited the two hooks, once
    each, and leaves the world [on_start] left; a second [start] awaits
    nothing and leaves the world as it is.  [stop], called instead of the
    first [start], awaits nothing and leaves the world as it is. *)
Theorem start_twice_stop_unstarted (a : AgentRef) w w2 w3 :
  let w0 := set_agent a (set_is_running true (agents w a)) w in
  let w1 := set_agent a (set_start_time (Some (now w0)) (agents w0 a)) w0 in
  is_running (agents w a) = false →
  setup_subscriptions a w1 = Returned tt w2 →
  on_start a w2 = Returned tt w3 →
  is_running (agents w3 a) = true →
  start a w = ([SetupSubscriptions a; OnStart a], Returned tt w3)
  ∧ start a w3 = ([], Returned tt w3)
  ∧ (start a;; start a) w = ([SetupSubscriptions a; OnStart a], Returned tt w3)
  ∧ is_running (agents w1 a) = true
  ∧ start_time (agents w1 a) = Some (now w0)
  ∧ stop a w = ([], Returned tt w).
Proof.
  intros w0 w1 Hstopped Hsetup Hstart Hr3.
  assert (start a w = ([SetupSubscriptions a; OnStart a], Returned tt w3)) as E1.
  { revert Hsetup. subst w1 w0. unfold start. unfold_M. simpl. rewrite Hstopped. simpl.
    intros ->. simpl. by rewrite Hstart. }
  assert (start a w3 = ([], Returned tt w3)) as E3.
  { unfold start. unfold_M. simpl. by rewrite Hr3. }
  split; [done|]. split; [done|]. split.
  { unfold mbind, M_bind, bind. by rewrite E1, E3. }
  subst w1 w0. simpl. rewrite !decide_True by done. simpl.
  split; [done|]. split; [done|].
  unfold stop. unfold_M. simpl. by rewrite Hstopped.
Qed.

(** *** The factory *)




Lemma registered_hashable (self : AgentFactory) (agent_type : PyVal) :
  is_Some (registered self agent_type) → unhashable_type agent_type = None.
Proof. destruct agent_type; simpl; try done; by intros [? ?]. Qed.





(** *** Monotony of the bus *)

Lemma extends_refl w : extends w w.
Proof. split; [done|]. intros topic. by split. Qed.

Lemma extends_trans w1 w2 w3 : extends w1 w2 → extends w2 w3 → extends w1 w3.
Proof.
  intros [Hh1 Hs1] [Hh2 Hs2]. split; [by etrans|].
  intros topic. destruct (Hs1 topic) as [? ?], (Hs2 topic) as [? ?].
  split; [by auto | by etrans].
Qed.

Lemma extends_append_history msg_data w : extends w (append_history msg_data w).
Proof.
  split; [by apply prefix_app_r|]. intros topic. by split.
Qed.

Lemma subscribe_extends topic (callback : Callback) w w' b :
  subscribe topic callback w = ([], Returned b w') → extends w w'.
Proof.
  destruct (subscribe_spec topic callback w) as (w1 & E & Hl & Hother & Hh & _).
  rewrite E. intros [= _ <-]. split; [by rewrite Hh|].
  intros topic'. unfold subscribers_of.
  destruct (decide (topic' = topic)) as [->|Hne].
  - rewrite Hl. split; [by eauto|]. simpl. by apply prefix_app_r.
  - by rewrite Hother.
Qed.

Lemma deliver_extends topic msg_data :
  (∀ c w0 w1, final_world (invoke c msg_data w0).2 = Some w1 → extends w0 w1) →
  ∀ fuel i w w',
    final_world (deliver fuel topic msg_data i w).2 = Some w' → extends w w'.
Proof.
  intros Hcb. induction fuel as [|fuel IH]; intros i w w'; simpl;
    destruct (subscribers w !! topic ≫= (.!! i)) as [c|]; simpl;
    try (intros [= <-]; apply extends_refl); try done.
  unfold_M. pose proof (Hcb c w) as Hc.
  destruct (invoke c msg_data w) as [tc [[] wc|e wc|]]; simpl in *.
  - pose proof (IH (S i) wc w') as Hrec.
    destruct (deliver fuel topic msg_data (S i) wc) as [tl ol]. simpl in *.
    intros Hf. eapply extends_trans; [by apply Hc|by apply Hrec].
  - intros [= <-]. by apply Hc.
  - done.
Qed.

(** C9. The bus has three operations, [subscribe], [publish] and
    [get_history], and none that unsubscribes.  Subscribers that only add to
    the history and to the subscriber lists being given, whatever world one
    of the three leaves has the history and every subscriber list of the
    world it started from as a prefix of its own: nothing is taken out or
    moved.  [subscribe] and [get_history] always return, and [get_history]
    changes nothing. *)
Theorem bus_operations_only_append fuel w :
  (∀ c msg_data w0 w1, final_world (invoke c msg_data w0).2 = Some w1 → extends w0 w1) →
  (∀ (op : BusOp) w', final_world (run_op fuel op w).2 = Some w' → extends w w')
  ∧ (∀ topic (c : Callback), ∃ w', run_op fuel (OpSubscribe topic c) w = ([], Returned tt w'))
  ∧ (∀ (t : option string) limit, run_op fuel (OpGetHistory t limit) w = ([], Returned tt w)).
Proof.
  intros Hcb. split; [|split].
  - intros [topic c|topic message source|t limit] w'; cbn [run_op].
    + destruct (subscribe_spec topic c w) as (w1 & E & _).
      pose proof (subscribe_extends topic c w w1 true E) as Hext.
      unfold mbind, M_bind, bind, mret, M_ret, ret. rewrite E. simpl.
      by intros [= <-].
    + unfold publish. unfold_M. simpl.
      set (msg_data := Build_Envelope (now w) topic source message).
      destruct (decide (is_Some (subscribers w !! topic))); simpl.
      * pose proof (deliver_extends topic msg_data (λ c, Hcb c msg_data) fuel 0
                      (append_history msg_data w)) as Hd.
        destruct (deliver fuel topic msg_data 0 (append_history msg_data w))
          as [t [[] wd|e wd|]]; simpl in *; try done;
          intros [= <-]; (eapply extends_trans; [apply extends_append_history|by apply Hd]).
      * intros [= <-]. apply extends_append_history.
    + simpl. intros [= <-]. apply extends_refl.
  - intros topic c. cbn [run_op].
    destruct (subscribe_spec topic c w) as (w1 & E & _).
    unfold mbind, M_bind, bind, mret, M_ret, ret. rewrite E. by eauto.
  - done.
Qed.

End Properties.

(** ** The properties on the concrete system *)

Lemma demo_log_call_extends (n : nat) w : extends w (log_call n w).
Proof. split; [done|]. intros topic. by split. Qed.

Lemma demo_invoke_extends (c : Callback) (msg_data : @Envelope string) w0 w1 :
  final_world (invoke c msg_data w0).2 = Some w1 → extends w0 w1.
Proof.
  destruct c as [f|a]; simpl.
  - destruct (decide (f = 13)); simpl; intros [= <-]; apply demo_log_call_extends.
  - unfold handle_message, try_except. unfold_M. simpl.
    destruct (decide (source msg_data = agent_id (agents w0 a))); simpl.
    + intros [= <-]. apply extends_refl.
    + destruct (decide (a = 7)); simpl; [intros [= <-]; apply extends_refl|].
      destruct (decide (a = 8)); simpl; intros [= <-];
        [apply extends_refl | apply demo_log_call_extends].
Qed.

Lemma demo_callback_returns (c : Callback) (msg_data : @Envelope string) w topic :
  c ∈ [Coroutine 1; HandleMessage 0; Coroutine 2] →
  ∃ w', callback_outcome c msg_data w = Returned tt w'
        ∧ subscribers w' !! topic = subscribers w !! topic.
Proof.
  intros Hc. repeat (apply elem_of_cons in Hc as [->|Hc]); [| | |by apply elem_of_nil in Hc].
  - by eexists.
  - simpl. unfold handle_message, try_except. unfold_M. simpl.
    destruct (decide (source msg_data = agent_id (agents w 0))); by eexists.
  - by eexists.
Qed.

Lemma publish_delivers_in_subscription_order_witness :
  ∃ w, subscribe_all "x" [Coroutine 1; HandleMessage 0; Coroutine 2] demo_world
       = ([], Returned tt w)
    ∧ let msg_data := Build_Envelope (now w) "x" "src" "hi" in
      ∃ t w', publish 3 "x" "hi" "src" w = (t, Returned msg_data w')
        ∧ deliveries t
          = (λ s, (s, msg_data)) <$> [Coroutine 1; HandleMessage 0; Coroutine 2]
        ∧ served_in_order [Coroutine 1; HandleMessage 0; Coroutine 2] msg_data
            (append_history msg_data w) = Some w'
        ∧ run_in_order [Coroutine 1; HandleMessage 0; Coroutine 2] msg_data
            (append_history msg_data w) = (t, Returned tt w').
Proof.
  apply (publish_delivers_in_subscription_order 3 "x" "hi" "src"
           [Coroutine 1; HandleMessage 0; Coroutine 2] demo_world).
  - reflexivity.
  - intros s msg_data w Hs. by apply demo_callback_returns.
  - simpl. lia.
Defined.

(** C1 as stated fails for callbacks that do not leave the delivery alone.
    Coroutine 21, the one subscriber registered on ["x"], subscribes
    coroutine 22 while it is served, and the same [publish] serves
    coroutine 22 too: more than the registered sequence.  Coroutine 13,
    registered between coroutines 1 and 2, raises, and coroutine 2 is not
    served: less than the registered sequence. *)
Lemma publish_serves_more_or_fewer_than_registered :
  let msg_data := demo_env "x" "src" "hi" in
  (∃ w t w',
     subscribe_all "x" [Coroutine 21] demo_world = ([], Returned tt w)
     ∧ @publish _ _ demo2 3 "x" "hi" "src" w = (t, Returned msg_data w')
     ∧ deliveries t = [(Coroutine 21, msg_data); (Coroutine 22, msg_data)]
     ∧ deliveries t ≠ (λ s, (s, msg_data)) <$> [Coroutine 21])
  ∧ (∃ w t e w',
       subscribe_all "x" [Coroutine 1; Coroutine 13; Coroutine 2] demo_world
       = ([], Returned tt w)
       ∧ publish 4 "x" "hi" "src" w = (t, Raised e w')
       ∧ deliveries t = [(Coroutine 1, msg_data); (Coroutine 13, msg_data)]
       ∧ deliveries t
         ≠ (λ s, (s, msg_data)) <$> [Coroutine 1; Coroutine 13; Coroutine 2]).
Proof.
  split.
  - eexists _, _, _. split; [vm_compute; reflexivity|].
    split; [vm_compute; reflexivity|]. split; [reflexivity|]. discriminate.
  - eexists _, _, _, _. split; [vm_compute; reflexivity|].
    split; [vm_compute; reflexivity|]. split; [reflexivity|]. discriminate.
Qed.

(** The order in which the three subscribers ran, as they logged it. *)
Example publish_order_example :
  ∃ w t w',
    subscribe_all "x" [Coroutine 1; HandleMessage 0; Coroutine 2] demo_world
      = ([], Returned tt w)
    ∧ publish 3 "x" "hi" "src" w = (t, Returned (demo_env "x" "src" "hi") w')
    ∧ user w' = [1; 100; 2]
    ∧ message_history w' = [demo_env "x" "src" "hi"].
Proof. by eexists _, _, _. Qed.

Lemma publish_no_subscribers_witness :
  let msg_data := Build_Envelope (now demo_world) "x" "src" "hi" in
  publish 0 "x" "hi" "src" demo_world
    = ([], Returned msg_data (append_history msg_data demo_world))
  ∧ message_history (append_history msg_data demo_world)
    = message_history demo_world ++ [msg_data]
  ∧ subscribers (append_history msg_data demo_world) = subscribers demo_world.
Proof.
  apply (publish_no_subscribers 0 "x" "hi" "src" demo_world). reflexivity.
Defined.

(** An agent does not process what it sent itself, and processes the rest. *)
Example handle_message_examples :
  processed 0 (handle_message 0 (demo_env "x" "idle" "mine") demo_world).1 = []
  ∧ processed 0 (handle_message 0 (demo_env "x" "a" "first") demo_world).1
    = [demo_env "x" "a" "first"].
Proof. split; reflexivity. Qed.

Lemma handle_message_routes_errors_witness :
  let msg_x := demo_env "x" "a" "first" in
  let msg_y := demo_env "y" "a" "first" in
  let e := OtherException "KeyError" "v" in
  let cancelled := NonException "CancelledError" in
  (handle_message 7 msg_x demo_world7
   = ([ProcessMessage 7 msg_x; OnError 7 e msg_x], Returned tt demo_world7)
   ∧ ∃ t o, deliver 2 "x" msg_x 0 demo_world7
            = ([Delivered (HandleMessage 7) msg_x; ProcessMessage 7 msg_x;
                OnError 7 e msg_x; Delivered (Coroutine 2) msg_x] ++ t, o))
  ∧ (handle_message 8 msg_y demo_world7 = ([ProcessMessage 8 msg_y], Raised cancelled demo_world7)
     ∧ deliver 1 "y" msg_y 0 demo_world7
       = ([Delivered (HandleMessage 8) msg_y; ProcessMessage 8 msg_y],
          Raised cancelled demo_world7)).
Proof.
  intros msg_x msg_y e cancelled. split.
  - assert (source msg_x ≠ agent_id (agents demo_world7 7)) as Hsrc by discriminate.
    assert (process_message 7 msg_x demo_world7 = Raised e demo_world7) as Hproc
      by reflexivity.
    destruct (handle_message_routes_errors 7 msg_x demo_world7 e demo_world7 Hsrc Hproc)
      as [_ Hret].
    destruct (Hret demo_world7 eq_refl) as [Hh Hbus].
    split; [exact Hh|].
    apply (Hbus 0 "x" 0 (Coroutine 2)); vm_compute; reflexivity.
  - assert (source msg_y ≠ agent_id (agents demo_world7 8)) as Hsrc by discriminate.
    assert (process_message 8 msg_y demo_world7 = Raised cancelled demo_world7) as Hproc
      by reflexivity.
    destruct (handle_message_routes_errors 8 msg_y demo_world7 cancelled demo_world7
                Hsrc Hproc) as [Hh Hbus].
    split; [exact Hh|].
    apply (Hbus 0 "y" 0). vm_compute; reflexivity.
Defined.

(** What the two publications leave behind: after the [KeyError] of agent
    7 coroutine 2 is served; after the cancellation of agent 8 it is not. *)
Example publish_past_a_failing_agent_example :
  (∃ t w', publish 3 "x" "first" "a" demo_world7
           = (t, Returned (demo_env "x" "a" "first") w') ∧ user w' = [2])
  ∧ (∃ t w', publish 3 "y" "first" "a" demo_world7
             = (t, Raised (NonException "CancelledError") w') ∧ user w' = []).
Proof.
  split; eexists _, _; (split; [vm_compute; reflexivity|reflexivity]).
Qed.

(** C4 as stated fails: a [process_message] that is cancelled raises
    [CancelledError], which [except Exception] lets through; [on_error] is
    not awaited and [handle_message] raises. *)
Lemma handle_message_lets_cancellation_through :
  let msg_data := demo_env "x" "a" "first" in
  process_message 8 msg_data demo_world = Raised (NonException "CancelledError") demo_world
  ∧ handle_message 8 msg_data demo_world
    = ([ProcessMessage 8 msg_data], Raised (NonException "CancelledError") demo_world).
Proof. split; reflexivity. Qed.

Lemma get_history_limit_witness :
  (Z.of_nat (length (get_history None 1 demo_world2)) ≤ 1)%Z
  ∧ get_history None 1 demo_world2 `sublist_of` message_history demo_world2.
Proof. apply (get_history_limit None 1 demo_world2). lia. Defined.

(** C5 at the limit 0, on a history of two envelopes: [history[-0:]] is
    [history[0:]], so [get_history(limit=0)] returns both envelopes, where
    at most 0 were to be returned; with the limit 1 it returns one. *)
Lemma get_history_limit_zero :
  message_history demo_world2 = [demo_env "x" "a" "first"; demo_env "y" "b" "second"]
  ∧ get_history None 0 demo_world2
    = [demo_env "x" "a" "first"; demo_env "y" "b" "second"]
  ∧ ¬ (Z.of_nat (length (get_history None 0 demo_world2)) ≤ 0)%Z
  ∧ get_history None 1 demo_world2 = [demo_env "y" "b" "second"].
Proof. repeat split; try reflexivity. simpl. lia. Qed.

Lemma get_history_topic_witness :
  demo_env "x" "a" "first" ∈ get_history (Some "x") 10 demo_world2
  ∧ topic (demo_env "x" "a" "first") = "x".
Proof.
  assert (demo_env "x" "a" "first" ∈ get_history (Some "x") 10 demo_world2) as Hin
    by (vm_compute; apply list_elem_of_here).
  split; [exact Hin|].
  apply (get_history_topic "x" 10 demo_world2 (demo_env "x" "a" "first"));
    [discriminate | exact Hin].
Defined.

(** C6 as stated fails for the empty topic: [if topic:] takes it for no
    topic at all and nothing is filtered. *)
Lemma get_history_empty_topic :
  get_history (Some "") 10 demo_world2
    = [demo_env "x" "a" "first"; demo_env "y" "b" "second"]
  ∧ demo_env "x" "a" "first" ∈ get_history (Some "") 10 demo_world2
  ∧ topic (demo_env "x" "a" "first") ≠ "".
Proof.
  split; [reflexivity|]. split; [|discriminate].
  vm_compute. apply list_elem_of_here.
Qed.

Lemma start_twice_stop_unstarted_witness :
  ∃ w3, outcome_of (subscribe_to_topic 0 "x"
                      (set_agent 0 (Build_Agent "idle" true [] (Some "2025-01-01T00:00:00"))
                         (set_agent 0 (Build_Agent "idle" true [] None) demo_world)))
        = Returned tt w3
    ∧ start 0 demo_world = ([SetupSubscriptions 0; OnStart 0], Returned tt w3)
    ∧ start 0 w3 = ([], Returned tt w3)
    ∧ (start 0;; start 0) demo_world = ([SetupSubscriptions 0; OnStart 0], Returned tt w3)
    ∧ stop 0 demo_world = ([], Returned tt demo_world)
    ∧ agents w3 0 = Build_Agent "idle" true ["x"] (Some "2025-01-01T00:00:00")
    ∧ subscribers w3 !! "x" = Some [HandleMessage 0].
Proof.
  assert (is_running (agents demo_world 0) = false) as Hstopped by reflexivity.
  pose (w0 := set_agent 0 (set_is_running true (agents demo_world 0)) demo_world).
  pose (w1 := set_agent 0 (set_start_time (Some (now w0)) (agents w0 0)) w0).
  destruct (outcome_of (subscribe_to_topic 0 "x" w1)) as [[] w3|e w3|] eqn:Hsub;
    [|vm_compute in Hsub; discriminate..].
  assert (setup_subscriptions 0 w1 = Returned tt w3) as Hsetup by exact Hsub.
  assert (on_start 0 w3 = Returned tt w3) as Hstart by reflexivity.
  assert (is_running (agents w3 0) = true) as Hrun.
  { vm_compute in Hsub. by injection Hsub as <-. }
  destruct (start_twice_stop_unstarted 0 demo_world w3 w3 Hstopped Hsetup Hstart Hrun)
    as (E1 & E2 & E3 & _ & _ & E4).
  exists w3. split; [exact Hsub|].
  split; [exact E1|]. split; [exact E2|]. split; [exact E3|]. split; [exact E4|].
  vm_compute in Hsub. injection Hsub as <-. split; reflexivity.
Defined.

(** C7 as stated fails when a hook raises. With a [setup_subscriptions]
    that raises, the first [start] raises with the agent already marked as
    running, and the second [start] awaits nothing: [setup_subscriptions] was
    awaited once and [on_start] not at all. *)
Lemma start_twice_never_awaits_on_start :
  let e := OtherException "RuntimeError" "no bus" in
  ∃ w', @start _ _ demo3 0 demo_world = ([SetupSubscriptions 0], Raised e w')
        ∧ is_running (agents w' 0) = true
        ∧ @start _ _ demo3 0 w' = ([], Returned tt w')
        ∧ OnStart 0 ∉ [SetupSubscriptions 0 : @Event string].
Proof.
  eexists. split; [vm_compute; reflexivity|]. split; [reflexivity|].
  split; [reflexivity|]. intros Hin. by apply list_elem_of_singleton in Hin.
Qed.



Lemma bus_operations_only_append_witness :
  (∀ (op : BusOp) w', final_world (run_op 5 op demo_world3).2 = Some w' →
                      extends demo_world3 w')
  ∧ (∀ topic (c : Callback),
       ∃ w', run_op 5 (OpSubscribe topic c) demo_world3 = ([], Returned tt w'))
  ∧ (∀ (t : option string) limit,
       run_op 5 (OpGetHistory t limit) demo_world3 = ([], Returned tt demo_world3)).
Proof.
  apply (bus_operations_only_append 5 demo_world3).
  intros c msg_data w0 w1. apply demo_invoke_extends.
Defined.


(** What the failing subscriber leaves behind: the first two subscribers
    ran, the third did not, and the message is in the history. *)
Example publish_subscriber_raises_example :
  ∃ t w', publish 5 "x" "hi" "src" demo_world3
          = (t, Raised (OtherException "RuntimeError" "boom") w')
    ∧ user w' = [1; 13]
    ∧ message_history w' = [demo_env "x" "src" "hi"].
Proof. by eexists _, _. Qed.

(** ** More about the bus *)

Section BusProperties.

Context {Payload User : Type} `{!@Runtime Payload User}.

Local Abbreviation World := (@World Payload User).
Local Abbreviation Envelope := (@Envelope Payload).
Local Abbreviation Event := (@Event Payload).

Implicit Types (w : World) (msg_data : Envelope) (topic : string).

Lemma lookup_subscribers_of topic i w :
  subscribers w !! topic ≫= (.!! i) = subscribers_of topic w !! i.
Proof. unfold subscribers_of. by destruct (subscribers w !! topic). Qed.

(** *** The history after a publish *)

Lemma py_slice_from_newest {A} (l : list A) (x : A) : py_slice_from (- 1) (l ++ [x]) = [x].
Proof.
  unfold py_slice_from. simpl. rewrite length_app. simpl.
  replace (Z.to_nat (Z.max 0 (Z.of_nat (length l + 1) + -1))) with (length l) by lia.
  by rewrite drop_app_length.
Qed.

Lemma deliver_keeps_history topic msg_data :
  (∀ c w0 w1, final_world (invoke c msg_data w0).2 = Some w1 →
              message_history w1 = message_history w0) →
  ∀ fuel i w w',
    final_world (deliver fuel topic msg_data i w).2 = Some w' →
    message_history w' = message_history w.
Proof.
  intros Hcb. induction fuel as [|fuel IH]; intros i w w'; simpl;
    destruct (subscribers w !! topic ≫= (.!! i)) as [c|]; simpl;
    try (by intros [= <-]); try done.
  unfold_M. pose proof (Hcb c w) as Hc.
  destruct (invoke c msg_data w) as [tc [[] wc|e wc|]]; simpl in *.
  - pose proof (IH (S i) wc w') as Hrec.
    destruct (deliver fuel topic msg_data (S i) wc) as [tl ol]. simpl in *.
    intros Hf. rewrite (Hrec Hf). by apply Hc.
  - intros [= <-]. by apply Hc.
  - done.
Qed.

(** X1. Whether [publish] returns or raises, the envelope it built is the
    newest entry of the history it leaves, as long as no subscriber touches
    the history; [get_history(limit=1)] then gives exactly that envelope,
    also when filtered by its (non-empty) topic. *)
Theorem publish_then_get_history fuel topic (message : Payload) source w w' :
  (∀ c msg_data w0 w1, final_world (invoke c msg_data w0).2 = Some w1 →
                       message_history w1 = message_history w0) →
  final_world (publish fuel topic message source w).2 = Some w' →
  let msg_data := Build_Envelope (now w) topic source message in
  message_history w' = message_history w ++ [msg_data]
  ∧ get_history None 1 w' = [msg_data]
  ∧ (topic ≠ "" → get_history (Some topic) 1 w' = [msg_data]).
Proof.
  intros Hcb Hfin msg_data.
  assert (message_history w' = message_history w ++ [msg_data]) as Hh.
  { revert Hfin. unfold publish. unfold_M. simpl. fold msg_data.
    destruct (decide (is_Some (subscribers w !! topic))); simpl.
    - pose proof (deliver_keeps_history topic msg_data (λ c, Hcb c msg_data) fuel 0
                    (append_history msg_data w) w') as Hd.
      destruct (deliver fuel topic msg_data 0 (append_history msg_data w))
        as [t [[] wd|e wd|]]; simpl in *; try done; intros [= <-]; by apply Hd.
    - by intros [= <-]. }
  split; [done|]. unfold get_history. rewrite Hh. split.
  - apply py_slice_from_newest.
  - intros Hne. simpl. rewrite bool_decide_eq_false_2 by done. simpl.
    rewrite filter_app, filter_cons_True, filter_nil by done.
    apply py_slice_from_newest.
Qed.

(** *** Subscribing during delivery *)

Lemma deliver_serves_the_final_list topic msg_data :
  (∀ c w0 w1, final_world (invoke c msg_data w0).2 = Some w1 → extends w0 w1) →
  ∀ fuel i w t w',
    deliver fuel topic msg_data i w = (t, Returned tt w') →
    deliveries t = (λ c, (c, msg_data)) <$> drop i (subscribers_of topic w').
Proof.
  intros Hcb. induction fuel as [|fuel IH]; intros i w t w'; simpl;
    rewrite lookup_subscribers_of;
    destruct (subscribers_of topic w !! i) as [c|] eqn:Ei; try done;
    try (intros [= <- <-]; rewrite drop_ge; [done|by apply lookup_ge_None]).
  unfold_M. intros Hd.
  pose proof (Hcb c w) as Hc. pose proof (deliveries_invoke c msg_data w) as Ec.
  destruct (invoke c msg_data w) as [tc [[] wc|e wc|]]; simpl in *; try done.
  destruct (deliver fuel topic msg_data (S i) wc) as [tl ol] eqn:El.
  injection Hd as <- ->.
  assert (extends w w') as [_ Hsub].
  { eapply extends_trans; [by apply Hc|].
    apply (deliver_extends topic msg_data Hcb fuel (S i) wc). by rewrite El. }
  destruct (Hsub topic) as [_ Hpre].
  rewrite (drop_S _ c i) by (by eapply prefix_lookup_Some).
  rewrite deliveries_app, Ec, (IH _ _ _ _ El). done.
Qed.

(** X2. The loop of [publish] runs over the live subscriber list: when
    [publish] returns, it has awaited exactly the subscribers the topic has
    at that moment, in order, those that were added while it was delivering
    included (subscribers only ever adding to the bus). *)
Theorem publish_serves_the_final_list fuel topic (message : Payload) source w t m w' :
  (∀ c msg_data w0 w1, final_world (invoke c msg_data w0).2 = Some w1 → extends w0 w1) →
  publish fuel topic message source w = (t, Returned m w') →
  m = Build_Envelope (now w) topic source message
  ∧ deliveries t = (λ c, (c, m)) <$> subscribers_of topic w'.
Proof.
  intros Hcb. unfold publish. unfold_M. simpl.
  set (msg_data := Build_Envelope (now w) topic source message).
  destruct (decide (is_Some (subscribers w !! topic))) as [Hs|Hn]; simpl.
  - destruct (deliver fuel topic msg_data 0 (append_history msg_data w))
      as [tl [[] wd|e wd|]] eqn:El; simpl; try done.
    intros [= <- <- <-]. split; [done|]. rewrite app_nil_r.
    by rewrite (deliver_serves_the_final_list topic msg_data (λ c, Hcb c msg_data)
                  _ _ _ _ _ El).
  - intros [= <- <- <-]. split; [done|]. unfold subscribers_of. simpl.
    destruct (subscribers w !! topic); [|done]. destruct Hn. by eauto.
Qed.

Lemma deliver_never_ends topic msg_data (P : Callback → Prop) :
  (∀ c w0, P c → Forall P (subscribers_of topic w0) →
     ∃ t w1, invoke c msg_data w0 = (t, Returned tt w1)
             ∧ length (subscribers_of topic w0) < length (subscribers_of topic w1)
             ∧ Forall P (subscribers_of topic w1)) →
  ∀ fuel i w, Forall P (subscribers_of topic w) →
              i < length (subscribers_of topic w) →
              (deliver fuel topic msg_data i w).2 = Pending.
Proof.
  intros Hcb. induction fuel as [|fuel IH]; intros i w HP Hi; simpl;
    rewrite lookup_subscribers_of;
    destruct (lookup_lt_is_Some_2 _ _ Hi) as [c Ec]; rewrite Ec; [done|].
  unfold_M.
  destruct (Hcb c w) as (tc & wc & -> & Hlen & HPc); [|done|].
  { eapply Forall_lookup_1; done. }
  pose proof (IH (S i) wc HPc ltac:(lia)) as Hrec.
  destruct (deliver fuel topic msg_data (S i) wc) as [tl ol]. by simpl in *.
Qed.

(** X3. If the subscribers of a topic are of a kind that, each time one is
    served, completes but leaves the topic with more subscribers than it
    found, all of that kind, then [publish] on the topic, once it has a
    subscriber, never returns: no amount of fuel is enough. *)
Theorem publish_never_ends fuel topic (message : Payload) source (P : Callback → Prop) w :
  (∀ c msg_data w0, P c → Forall P (subscribers_of topic w0) →
     ∃ t w1, invoke c msg_data w0 = (t, Returned tt w1)
             ∧ length (subscribers_of topic w0) < length (subscribers_of topic w1)
             ∧ Forall P (subscribers_of topic w1)) →
  Forall P (subscribers_of topic w) →
  subscribers_of topic w ≠ [] →
  (publish fuel topic message source w).2 = Pending.
Proof.
  intros Hcb HP Hne. unfold publish. unfold_M. simpl.
  set (msg_data := Build_Envelope (now w) topic source message).
  pose proof (deliver_never_ends topic msg_data P (λ c, Hcb c msg_data) fuel 0
                (append_history msg_data w) HP) as Hd.
  unfold subscribers_of in Hne, Hd. simpl in Hd.
  destruct (subscribers w !! topic) as [l|] eqn:El; [|done]. simpl in *.
  destruct (deliver fuel topic msg_data 0 (append_history msg_data w)) as [t o].
  simpl in *. rewrite Hd; [done|]. destruct l; [done|simpl; lia].
Qed.

(** *** How much of the history [get_history] returns *)

(** X4. For a limit of at least one, [get_history] returns the newest
    [limit] entries of the (filtered) history, or all of them if there are
    fewer: nothing for an empty history. *)
Theorem get_history_newest (t : option string) (limit : Z) w :
  (1 ≤ limit)%Z →
  let history := if topic_given t then filter (topic_is t) (message_history w)
                 else message_history w in
  get_history t limit w = drop (length history - Z.to_nat limit) history
  ∧ length (get_history t limit w) = length history `min` Z.to_nat limit.
Proof.
  intros Hl history.
  assert (get_history t limit w = drop (length history - Z.to_nat limit) history) as E.
  { unfold get_history. fold history. unfold py_slice_from.
    destruct (Z.ltb_spec (- limit) 0); [|lia]. f_equal. lia. }
  split; [done|]. rewrite E, length_drop. lia.
Qed.

(** X5. For a limit of zero or less, [get_history] does not return the
    newest entries: [history[-limit:]] then drops the [-limit] oldest
    entries of the (filtered) history and returns all the others, so a
    limit of zero returns everything. *)
Theorem get_history_limit_not_positive (t : option string) (limit : Z) w :
  (limit ≤ 0)%Z →
  let history := if topic_given t then filter (topic_is t) (message_history w)
                 else message_history w in
  get_history t limit w = drop (Z.to_nat (- limit)) history
  ∧ (limit = 0%Z → get_history t limit w = history).
Proof.
  intros Hl history.
  assert (get_history t limit w = drop (Z.to_nat (- limit)) history) as E.
  { unfold get_history. fold history. unfold py_slice_from.
    destruct (Z.ltb_spec (- limit) 0); [lia|].
    destruct (Z.min_spec (Z.of_nat (length history)) (- limit)) as [[? ->]|[? ->]]; [|done].
    rewrite Nat2Z.id. rewrite !drop_ge; [done|lia|lia]. }
  split; [done|]. intros ->. by rewrite E.
Qed.

End BusProperties.

(** ** More about the agents *)

Section AgentProperties.

Context {Payload User : Type} `{!@Runtime Payload User}.

Local Abbreviation World := (@World Payload User).
Local Abbreviation Envelope := (@Envelope Payload).
Local Abbreviation Event := (@Event Payload).

Implicit Types (w : World) (msg_data : Envelope) (topic : string) (a b : AgentRef).

(** *** What [start] and [stop] come to *)

Lemma start_not_running a w :
  is_running (agents w a) = false →
  let w0 := set_agent a (set_is_running true (agents w a)) w in
  let w1 := set_agent a (set_start_time (Some (now w0)) (agents w0 a)) w0 in
  start a w = match setup_subscriptions a w1 with
              | Returned _ w2 => ([SetupSubscriptions a; OnStart a], on_start a w2)
              | Raised e w2 => ([SetupSubscriptions a], Raised e w2)
              | Pending => ([SetupSubscriptions a], Pending)
              end
  ∧ is_running (agents w1 a) = true
  ∧ subscriptions (agents w1 a) = subscriptions (agents w a)
  ∧ subscribers w1 = subscribers w.
Proof.
  intros Hr w0 w1. subst w0 w1. unfold start. unfold_M. simpl. rewrite Hr. simpl.
  destruct (decide (a = a)) as [_|?]; [|done]. simpl. split; [|done].
  match goal with |- context [setup_subscriptions a ?w1] =>
    destruct (setup_subscriptions a w1) as [[] w2|e w2|] end; simpl; try done.
Qed.

Lemma stop_running a w :
  is_running (agents w a) = true →
  let w1 := set_agent a (set_is_running false (agents w a)) w in
  stop a w = match on_stop a w1 with
             | Returned _ w2 =>
                 ([OnStop a], Returned tt (set_agent a (set_subscriptions [] (agents w2 a)) w2))
             | Raised e w2 => ([OnStop a], Raised e w2)
             | Pending => ([OnStop a], Pending)
             end
  ∧ is_running (agents w1 a) = false
  ∧ subscriptions (agents w1 a) = subscriptions (agents w a)
  ∧ subscribers w1 = subscribers w.
Proof.
  intros Hr w1. subst w1. unfold stop. unfold_M. simpl. rewrite Hr. simpl.
  destruct (decide (a = a)) as [_|?]; [|done]. simpl. split; [|done].
  match goal with |- context [on_stop a ?w1] =>
    destruct (on_stop a w1) as [[] w2|e w2|] end; simpl; try done.
Qed.

(** X6. [stop] on a running agent whose [on_stop] completes, leaving the
    bus and the agent's flag alone: [on_stop] is awaited once, the agent is
    no longer running and its own list of subscriptions is empty, but the
    subscriber lists of the bus are what they were, so the agent's handler
    stays registered. *)
Theorem stop_keeps_the_bus_registrations a w :
  is_running (agents w a) = true →
  (∀ w0, ∃ w1, on_stop a w0 = Returned tt w1
               ∧ subscribers w1 = subscribers w0
               ∧ is_running (agents w1 a) = is_running (agents w0 a)) →
  ∃ w', stop a w = ([OnStop a], Returned tt w')
        ∧ is_running (agents w' a) = false
        ∧ subscriptions (agents w' a) = []
        ∧ subscribers w' = subscribers w.
Proof.
  intros Hr Hstop. destruct (stop_running a w Hr) as (E & Hr1 & _ & Hs1).
  destruct (Hstop (set_agent a (set_is_running false (agents w a)) w))
    as (w2 & E2 & Hs2 & Hr2).
  rewrite E2 in E. eexists. split; [exact E|]. simpl.
  rewrite decide_True by done. simpl. rewrite Hs2, Hs1, Hr2, Hr1. done.
Qed.

(** X7. When [on_stop] raises, so does [stop], after the agent was marked
    as stopped and before its list of subscriptions is cleared; calling
    [stop] again does nothing, so the list stays as it was. *)
Theorem stop_on_stop_raises a w e :
  is_running (agents w a) = true →
  (∀ w0, ∃ w1, on_stop a w0 = Raised e w1 ∧ agents w1 a = agents w0 a) →
  ∃ w', stop a w = ([OnStop a], Raised e w')
        ∧ is_running (agents w' a) = false
        ∧ subscriptions (agents w' a) = subscriptions (agents w a)
        ∧ stop a w' = ([], Returned tt w').
Proof.
  intros Hr Hstop. destruct (stop_running a w Hr) as (E & Hr1 & Hsub1 & _).
  destruct (Hstop (set_agent a (set_is_running false (agents w a)) w)) as (w2 & E2 & Ha).
  rewrite E2 in E. exists w2. split; [exact E|].
  rewrite Ha. split; [done|]. split; [done|].
  unfold stop. unfold_M. simpl. by rewrite Ha, Hr1.
Qed.

(** X8. When [setup_subscriptions] raises, so does [start], after the
    agent was marked as running: [on_start] is not awaited, and since a
    second [start] finds the agent running and does nothing, it never is. *)
Theorem start_setup_subscriptions_raises a w e :
  is_running (agents w a) = false →
  (∀ w0, ∃ w1, setup_subscriptions a w0 = Raised e w1
               ∧ is_running (agents w1 a) = is_running (agents w0 a)) →
  ∃ w', start a w = ([SetupSubscriptions a], Raised e w')
        ∧ is_running (agents w' a) = true
        ∧ start a w' = ([], Returned tt w').
Proof.
  intros Hr Hsetup. destruct (start_not_running a w Hr) as (E & Hr1 & _).
  match type of E with context [setup_subscriptions a ?w1] =>
    destruct (Hsetup w1) as (w2 & E2 & Hr2) end.
  rewrite E2 in E. exists w2. split; [exact E|].
  rewrite Hr2, Hr1. split; [done|].
  unfold start. unfold_M. simpl. by rewrite Hr2, Hr1.
Qed.

(** *** Subscribing an agent *)

Lemma subscribers_of_lookup topic w l :
  subscribers w !! topic = Some l → subscribers_of topic w = l.
Proof. unfold subscribers_of. by intros ->. Qed.

Lemma subscribe_to_topic_spec a topic w :
  ∃ w', subscribe_to_topic a topic w = ([], Returned tt w')
        ∧ (∀ topic', subscribers_of topic' w'
             = subscribers_of topic' w
               ++ if decide (topic = topic') then [HandleMessage a] else [])
        ∧ message_history w' = message_history w
        ∧ agents w' a = set_subscriptions (subscriptions (agents w a) ++ [topic]) (agents w a)
        ∧ (∀ b, b ≠ a → agents w' b = agents w b).
Proof.
  destruct (subscribe_spec topic (HandleMessage a) w) as (w1 & E & Hl & Hother & Hh & Ha & _).
  unfold subscribe_to_topic. unfold_M. rewrite E. simpl.
  eexists. split; [done|]. simpl. rewrite Ha, Hh.
  split; [|split; [done|split]].
  - intros topic'. unfold subscribers_of at 1. simpl.
    destruct (decide (topic = topic')) as [<-|Hne].
    + by rewrite Hl.
    + rewrite Hother by done. by rewrite app_nil_r.
  - by rewrite decide_True.
  - intros b Hb. by rewrite decide_False.
Qed.

Lemma occurrences_cons topic t (topics : list string) :
  occurrences topic (t :: topics)
  = (if decide (t = topic) then 1 else 0) + occurrences topic topics.
Proof.
  unfold occurrences. destruct (decide (t = topic)) as [->|Hne].
  - by rewrite filter_cons_True.
  - by rewrite filter_cons_False.
Qed.

Lemma subscribe_to_topics_spec a (topics : list string) w :
  ∃ w', subscribe_to_topics a topics w = ([], Returned tt w')
        ∧ (∀ topic, subscribers_of topic w'
             = subscribers_of topic w
               ++ replicate (occurrences topic topics) (HandleMessage a))
        ∧ message_history w' = message_history w
        ∧ subscriptions (agents w' a) = subscriptions (agents w a) ++ topics
        ∧ is_running (agents w' a) = is_running (agents w a)
        ∧ agent_id (agents w' a) = agent_id (agents w a).
Proof.
  revert w. induction topics as [|t topics IH]; intros w.
  - exists w. simpl. split; [done|]. split; [|by rewrite app_nil_r].
    intros topic. by rewrite app_nil_r.
  - destruct (subscribe_to_topic_spec a t w) as (w1 & E1 & Hs1 & Hh1 & Ha1 & _).
    destruct (IH w1) as (w2 & E2 & Hs2 & Hh2 & Hsub2 & Hr2 & Hid2).
    exists w2. simpl. unfold_M. rewrite E1, E2. simpl. split; [done|].
    rewrite Hh2, Hh1, Hsub2, Hr2, Hid2, Ha1. simpl.
    split; [|by rewrite <- app_assoc].
    intros topic. rewrite Hs2, Hs1, occurrences_cons, <- app_assoc. f_equal.
    by destruct (decide (t = topic)).
Qed.

(** *** Starting again *)

Lemma subscribers_of_same topic w w' :
  subscribers w' = subscribers w → subscribers_of topic w' = subscribers_of topic w.
Proof. unfold subscribers_of. by intros ->. Qed.

Lemma start_subscribing a (topics : list string) w :
  is_running (agents w a) = false →
  (∀ w0, setup_subscriptions a w0 = (subscribe_to_topics a topics w0).2) →
  (∀ w0, ∃ w1, on_start a w0 = Returned tt w1
               ∧ subscribers w1 = subscribers w0 ∧ agents w1 a = agents w0 a) →
  ∃ w', start a w = ([SetupSubscriptions a; OnStart a], Returned tt w')
        ∧ (∀ topic, subscribers_of topic w'
             = subscribers_of topic w
               ++ replicate (occurrences topic topics) (HandleMessage a))
        ∧ subscriptions (agents w' a) = subscriptions (agents w a) ++ topics
        ∧ is_running (agents w' a) = true.
Proof.
  intros Hr Hsetup Hstart.
  destruct (start_not_running a w Hr) as (E & Hr1 & Hsub1 & Hs1).
  match type of E with context [setup_subscriptions a ?w0] => set (w1 := w0) in * end.
  destruct (subscribe_to_topics_spec a topics w1) as (w2 & E2 & Hs2 & _ & Hsub2 & Hr2 & _).
  rewrite Hsetup, E2 in E. simpl in E.
  destruct (Hstart w2) as (w3 & E3 & Hs3 & Ha3). rewrite E3 in E.
  exists w3. split; [exact E|]. rewrite Ha3, Hsub2, Hr2, Hsub1, Hr1.
  split; [|done]. intros topic.
  by rewrite (subscribers_of_same topic w2 w3 Hs3), Hs2, (subscribers_of_same topic w w1 Hs1).
Qed.

Lemma stop_quietly a w :
  is_running (agents w a) = true →
  (∀ w0, ∃ w1, on_stop a w0 = Returned tt w1
               ∧ subscribers w1 = subscribers w0 ∧ agents w1 a = agents w0 a) →
  ∃ w', stop a w = ([OnStop a], Returned tt w')
        ∧ subscribers w' = subscribers w
        ∧ subscriptions (agents w' a) = []
        ∧ is_running (agents w' a) = false.
Proof.
  intros Hr Hstop. destruct (stop_running a w Hr) as (E & Hr1 & _ & Hs1).
  destruct (Hstop (set_agent a (set_is_running false (agents w a)) w))
    as (w2 & E2 & Hs2 & Ha2).
  rewrite E2 in E. eexists. split; [exact E|]. simpl.
  rewrite decide_True by done. simpl. by rewrite Hs2, Hs1, Ha2, Hr1.
Qed.

(** X9. An agent whose [setup_subscriptions] subscribes it to a list of
    topics, as those of the four agents do, and whose other hooks leave
    the bus and the agent alone: after [start], [stop], [start] the bus has
    the agent's handler twice for every occurrence of a topic in the list,
    while the agent's own list of subscriptions shows each once. *)
Theorem restart_registers_again a (topics : list string) w :
  is_running (agents w a) = false →
  (∀ w0, setup_subscriptions a w0 = (subscribe_to_topics a topics w0).2) →
  (∀ w0, ∃ w1, on_start a w0 = Returned tt w1
               ∧ subscribers w1 = subscribers w0 ∧ agents w1 a = agents w0 a) →
  (∀ w0, ∃ w1, on_stop a w0 = Returned tt w1
               ∧ subscribers w1 = subscribers w0 ∧ agents w1 a = agents w0 a) →
  ∃ w', (start a;; stop a;; start a) w
        = ([SetupSubscriptions a; OnStart a; OnStop a; SetupSubscriptions a; OnStart a],
           Returned tt w')
        ∧ (∀ topic, subscribers_of topic w'
             = subscribers_of topic w
               ++ replicate (2 * occurrences topic topics) (HandleMessage a))
        ∧ subscriptions (agents w' a) = topics
        ∧ is_running (agents w' a) = true.
Proof.
  intros Hr Hsetup Hstart Hstop.
  destruct (start_subscribing a topics w Hr Hsetup Hstart) as (w1 & E1 & Hs1 & _ & Hr1).
  destruct (stop_quietly a w1 Hr1 Hstop) as (w2 & E2 & Hs2 & Hsub2 & Hr2).
  destruct (start_subscribing a topics w2 Hr2 Hsetup Hstart) as (w3 & E3 & Hs3 & Hsub3 & Hr3).
  exists w3. unfold mbind, M_bind, bind. rewrite E1, E2, E3. simpl.
  split; [done|]. rewrite Hsub3, Hsub2. split; [|done].
  intros topic. rewrite Hs3, (subscribers_of_same topic w1 w2 Hs2), Hs1, <- app_assoc.
  f_equal. rewrite <- replicate_add. f_equal. lia.
Qed.

(** X10. A QA agent subscribes to ["code.generated"] in its constructor
    and again in [setup_subscriptions]: once it is built and its
    subscriptions are set up, the bus has its handler twice on that topic,
    and the agent's own list names the topic twice. *)
Theorem QAAgent_subscribes_code_generated_twice
    (attributes : AgentRef → option (gmap string PyVal) → User → User)
    a (id : string) (config : option (gmap string PyVal)) w :
  ∃ w', (QAAgent_init attributes a id config;; QAAgent_setup_subscriptions a) w
        = ([], Returned tt w')
        ∧ subscribers_of "code.generated" w'
          = subscribers_of "code.generated" w ++ [HandleMessage a; HandleMessage a]
        ∧ subscriptions (agents w' a)
          = ["code.generated"; "qa.run_tests"; "qa.generate_tests";
             "code.generated"; "code.review_request"; "test.run_request";
             "quality.check_request"]
        ∧ is_running (agents w' a) = false
        ∧ agent_id (agents w' a) = id.
Proof.
  unfold QAAgent_init, QAAgent_setup_subscriptions, BaseAgent_init. unfold_M.
  cbn -[subscribe_to_topics].
  match goal with |- context [subscribe_to_topics a _ ?w1] =>
    match w1 with set_user _ _ => set (w0 := w1) end end.
  destruct (subscribe_to_topics_spec a ["code.generated"; "qa.run_tests"; "qa.generate_tests"]
              w0) as (w1 & E1 & Hs1 & _ & Hsub1 & Hr1 & Hid1).
  destruct (subscribe_to_topics_spec a
              ["code.generated"; "code.review_request"; "test.run_request";
               "quality.check_request"] w1) as (w2 & E2 & Hs2 & _ & Hsub2 & Hr2 & Hid2).
  exists w2. rewrite E1, E2. split; [done|].
  rewrite Hs2, Hs1, Hsub2, Hsub1, Hr2, Hr1, Hid2, Hid1. subst w0. simpl.
  rewrite decide_True by done. simpl. rewrite <- app_assoc. done.
Qed.

(** *** Several registrations, one message *)




(** *** Agents that share an identifier *)

Lemma deliver_suppressed topic msg_data (rest : list Callback) :
  ∀ (seen : list Callback) fuel w,
    subscribers w !! topic = Some (seen ++ rest) →
    (∀ c, c ∈ rest → ∃ b, c = HandleMessage b ∧ agent_id (agents w b) = source msg_data) →
    length rest ≤ fuel →
    deliver fuel topic msg_data (length seen) w
    = ((λ c, Delivered c msg_data) <$> rest, Returned tt w).
Proof.
  induction rest as [|c rest IH]; intros seen fuel w Hl Hids Hfuel.
  - apply deliver_nobody. rewrite Hl. simpl.
    apply lookup_ge_None_2. rewrite app_nil_r. lia.
  - destruct fuel as [|fuel]; [simpl in Hfuel; lia|].
    destruct (Hids c) as (b & -> & Hid); [set_solver|].
    simpl. rewrite Hl. simpl. rewrite list_lookup_middle by done.
    unfold_M. cbn [invoke]. unfold_M. unfold handle_message, try_except. unfold_M.
    cbn [fst snd]. rewrite decide_True by done.
    replace (S (length seen)) with (length (seen ++ [HandleMessage b]))
      by (rewrite length_app; simpl; lia).
    rewrite IH; [done| | |simpl in Hfuel; lia].
    + by rewrite <- app_assoc.
    + intros c' Hc'. apply Hids. set_solver.
Qed.

(** X12. What an agent publishes with [publish_message] carries its
    identifier as source, and the handlers of agents with that identifier
    drop it: if the topic's subscribers are all handlers of such agents (the
    publisher itself, or others that were given the same identifier), the
    message is recorded and delivered to each, and no [process_message] is
    awaited. *)
Theorem publish_message_same_identifier fuel a topic (message : Payload)
    (l : list Callback) w :
  subscribers w !! topic = Some l →
  (∀ c, c ∈ l → ∃ b, c = HandleMessage b ∧ agent_id (agents w b) = agent_id (agents w a)) →
  length l ≤ fuel →
  let msg_data := Build_Envelope (now w) topic (agent_id (agents w a)) message in
  publish_message fuel a topic message w
  = ((λ c, Delivered c msg_data) <$> l, Returned tt (append_history msg_data w)).
Proof.
  intros Hl Hids Hfuel msg_data.
  unfold publish_message, publish. unfold_M. simpl. fold msg_data. rewrite Hl. simpl.
  pose proof (deliver_suppressed topic msg_data l [] fuel (append_history msg_data w))
    as Hd.
  simpl in Hd. rewrite Hd by done. simpl. by rewrite !app_nil_r.
Qed.

End AgentProperties.

(** ** More about the factory *)

Section FactoryProperties.

Context {Payload User : Type} `{!@Runtime Payload User}.

Local Abbreviation World := (@World Payload User).
Local Abbreviation Event := (@Event Payload).

Implicit Types (w : World) (self : AgentFactory) (config : gmap string PyVal).

(** *** The registry *)

Lemma dict_get_set {V} (k k' : string) (v : V) (d : list (string * V)) :
  dict_get k' (dict_set k v d) = if decide (k = k') then Some v else dict_get k' d.
Proof.
  induction d as [|[k0 v0] d IH]; simpl.
  - destruct (decide (k = k')); [done|]. done.
  - destruct (decide (k0 = k)) as [->|Hne]; simpl.
    + by destruct (decide (k = k')).
    + destruct (decide (k0 = k')) as [->|Hne'].
      * by rewrite decide_False.
      * done.
Qed.

Lemma dict_set_keys {V} (k : string) (v : V) (d : list (string * V)) :
  (dict_set k v d).*1 = if decide (k ∈ d.*1) then d.*1 else d.*1 ++ [k].
Proof.
  induction d as [|[k0 v0] d IH].
  - destruct (decide (k ∈ ([] : list (string * V)).*1)) as [Hin|_]; [|done].
    by apply elem_of_nil in Hin.
  - cbn [dict_set]. destruct (decide (k0 = k)) as [->|Hne].
    + rewrite decide_True; [done|]. apply list_elem_of_here.
    + rewrite fmap_cons, IH. cbn [fst].
      destruct (decide (k ∈ d.*1)) as [Hin|Hnin].
      * rewrite decide_True; [done|]. rewrite fmap_cons. by apply list_elem_of_further.
      * rewrite decide_False; [done|]. rewrite fmap_cons. intros Hin.
        apply elem_of_cons in Hin as [->|Hin]; done.
Qed.

(** X13. [register_agent] then a lookup: the name just registered gives
    the class just registered, every other name gives what it gave before;
    a new name goes to the end of the list of available types, a name that
    was there keeps its place. *)
Theorem register_agent_lookup (name other : string) (cls : AgentClass) self :
  registered (register_agent name cls self) (PStr other)
  = (if decide (name = other) then Some cls else registered self (PStr other))
  ∧ list_available_agents (register_agent name cls self)
    = (if decide (name ∈ list_available_agents self) then list_available_agents self
       else list_available_agents self ++ [name]).
Proof.
  split.
  - simpl. apply dict_get_set.
  - unfold list_available_agents. simpl. apply dict_set_keys.
Qed.

Lemma registered_after_registrations (extra : list (string * AgentClass)) self (ty : string) :
  is_Some (registered self (PStr ty)) →
  is_Some (registered (foldl (λ f p, register_agent p.1 p.2 f) self extra) (PStr ty)).
Proof.
  revert self. induction extra as [|[n c] extra IH]; intros self Hs; simpl; [done|].
  apply IH. simpl. rewrite dict_get_set. by destruct (decide (n = ty)).
Qed.

(** X14. Nothing unregisters: in a factory as its constructor leaves it,
    and after any number of [register_agent] calls, the four core types
    are registered, and they are the first four available types, in the
    order architect, codegen, qa, docs. *)
Theorem core_types_stay_registered (extra : list (string * AgentClass)) :
  let self := foldl (λ f p, register_agent p.1 p.2 f) AgentFactory_init extra in
  Forall (λ ty, is_Some (registered self (PStr ty))) ["architect"; "codegen"; "qa"; "docs"]
  ∧ take 4 (list_available_agents self) = ["architect"; "codegen"; "qa"; "docs"].
Proof.
  intros self. split.
  - repeat constructor; apply registered_after_registrations; by eexists.
  - subst self.
    assert (take 4 (list_available_agents AgentFactory_init)
            = ["architect"; "codegen"; "qa"; "docs"]) as Hinit by done.
    assert (4 ≤ length (list_available_agents AgentFactory_init)) as Hlen by (simpl; lia).
    revert Hinit Hlen. generalize AgentFactory_init.
    induction extra as [|[n c] extra IH]; intros self Hinit Hlen; simpl; [done|].
    assert (list_available_agents (register_agent n c self)
            = if decide (n ∈ list_available_agents self) then list_available_agents self
              else list_available_agents self ++ [n]) as E
      by (unfold list_available_agents; simpl; apply dict_set_keys).
    apply IH; rewrite E; destruct (decide (n ∈ list_available_agents self)); try done.
    + by rewrite take_app_le.
    + rewrite length_app. lia.
Qed.

(** *** Building agents *)

Lemma create_agent_run self (agent_type : PyVal) config (cls : AgentClass) w :
  registered self agent_type = Some cls →
  let id := default (PStr (py_str agent_type +:+ "_agent")) (config !! "agent_id") in
  let passed := if bool_decide (agent_type ∈ [PStr "qa"; PStr "docs"])
                then Some config else None in
  create_agent self agent_type config w
  = ([Instantiate cls id passed], construct cls id passed w).
Proof.
  intros E id passed. unfold create_agent.
  rewrite (registered_hashable self agent_type) by eauto. rewrite E. subst passed.
  by destruct (bool_decide _).
Qed.




(** *** The core agents *)

Lemma create_core_agents_step self (project_config : ProjectConfig) (ty : string)
    (types : list string) (acc : list (string * AgentRef)) w (cls : AgentClass) :
  registered self (PStr ty) = Some cls →
  create_core_agents_loop self project_config (ty :: types) acc w
  = (let id := core_id project_config ty in
     let passed := if bool_decide (PStr ty ∈ [PStr "qa"; PStr "docs"])
                   then Some (core_config project_config ty) else None in
     match construct cls id passed w with
     | Returned a w1 =>
         let '(t', o) := create_core_agents_loop self project_config types
                           (dict_set ty a acc) w1 in
         (Instantiate cls id passed :: t', o)
     | Raised e w1 => ([Instantiate cls id passed], Raised e w1)
     | Pending => ([Instantiate cls id passed], Pending)
     end).
Proof.
  intros E. cbn [create_core_agents_loop]. unfold mbind, M_bind, bind.
  by rewrite (create_agent_run self _ _ cls w E).
Qed.

Lemma create_core_agents_run self (project_config : ProjectConfig) w
    (c1 c2 c3 c4 : AgentClass) :
  registered self (PStr "architect") = Some c1 →
  registered self (PStr "codegen") = Some c2 →
  registered self (PStr "qa") = Some c3 →
  registered self (PStr "docs") = Some c4 →
  (∀ cls id cfg w0, ∃ a w1, construct cls id cfg w0 = Returned a w1) →
  ∃ a1 a2 a3 a4 w',
    create_core_agents self project_config w
    = ([Instantiate c1 (core_id project_config "architect") None;
        Instantiate c2 (core_id project_config "codegen") None;
        Instantiate c3 (core_id project_config "qa")
          (Some (core_config project_config "qa"));
        Instantiate c4 (core_id project_config "docs")
          (Some (core_config project_config "docs"))],
       Returned [("architect", a1); ("codegen", a2); ("qa", a3); ("docs", a4)] w').
Proof.
  intros E1 E2 E3 E4 Hc. unfold create_core_agents.
  rewrite (create_core_agents_step self project_config "architect" _ _ w c1 E1). cbv zeta.
  match goal with |- context [construct c1 ?i ?p w] =>
    destruct (Hc c1 i p w) as (a1 & w1 & ->) end.
  rewrite (create_core_agents_step self project_config "codegen" _ _ w1 c2 E2). cbv zeta.
  match goal with |- context [construct c2 ?i ?p w1] =>
    destruct (Hc c2 i p w1) as (a2 & w2 & ->) end.
  rewrite (create_core_agents_step self project_config "qa" _ _ w2 c3 E3). cbv zeta.
  match goal with |- context [construct c3 ?i ?p w2] =>
    destruct (Hc c3 i p w2) as (a3 & w3 & ->) end.
  rewrite (create_core_agents_step self project_config "docs" _ _ w3 c4 E4). cbv zeta.
  match goal with |- context [construct c4 ?i ?p w3] =>
    destruct (Hc c4 i p w3) as (a4 & w4 & ->) end.
  by exists a1, a2, a3, a4, w4.
Qed.

Lemma core_config_lookup (project_config : ProjectConfig) (ty k : string) :
  core_config project_config ty !! k
  = match default ∅ (default ∅ (cfg_agents project_config) !! ty) !! k with
    | Some v => Some v
    | None => default ∅ (cfg_common project_config) !! k
    end.
Proof.
  unfold core_config. rewrite lookup_union.
  destruct (default ∅ (default ∅ (cfg_agents project_config) !! ty) !! k) as [v|];
    by destruct (default ∅ (cfg_common project_config) !! k).
Qed.

Lemma core_types_registered self :
  (∀ ty, ty ∈ ["architect"; "codegen"; "qa"; "docs"] → is_Some (registered self (PStr ty))) →
  ∃ c1 c2 c3 c4,
    registered self (PStr "architect") = Some c1
    ∧ registered self (PStr "codegen") = Some c2
    ∧ registered self (PStr "qa") = Some c3
    ∧ registered self (PStr "docs") = Some c4.
Proof.
  intros Hreg.
  destruct (Hreg "architect") as [c1 E1]; [set_solver|].
  destruct (Hreg "codegen") as [c2 E2]; [set_solver|].
  destruct (Hreg "qa") as [c3 E3]; [set_solver|].
  destruct (Hreg "docs") as [c4 E4]; [set_solver|].
  by exists c1, c2, c3, c4.
Qed.

(** X17. With the four core types registered and constructors that
    return, [create_core_agents] calls the classes registered as architect,
    codegen, qa and docs, in that order, each on the world the one before
    it left, and returns what they return under these names.  Each gets the
    identifier found in its merged configuration, or [<type>_agent]; only
    qa and docs are handed the merged configuration; and in the merged
    configuration the agent's own value wins over the common one. *)
Theorem create_core_agents_builds_four self (project_config : ProjectConfig)
    (c1 c2 c3 c4 : AgentClass) (a1 a2 a3 a4 : AgentRef) w w1 w2 w3 w4 :
  registered self (PStr "architect") = Some c1 →
  registered self (PStr "codegen") = Some c2 →
  registered self (PStr "qa") = Some c3 →
  registered self (PStr "docs") = Some c4 →
  construct c1 (core_id project_config "architect") None w = Returned a1 w1 →
  construct c2 (core_id project_config "codegen") None w1 = Returned a2 w2 →
  construct c3 (core_id project_config "qa") (Some (core_config project_config "qa")) w2
  = Returned a3 w3 →
  construct c4 (core_id project_config "docs") (Some (core_config project_config "docs")) w3
  = Returned a4 w4 →
  let t := [Instantiate c1 (core_id project_config "architect") None;
            Instantiate c2 (core_id project_config "codegen") None;
            Instantiate c3 (core_id project_config "qa")
              (Some (core_config project_config "qa"));
            Instantiate c4 (core_id project_config "docs")
              (Some (core_config project_config "docs"))] in
  create_core_agents self project_config w
  = (t, Returned [("architect", a1); ("codegen", a2); ("qa", a3); ("docs", a4)] w4)
  ∧ instantiated_classes t = [c1; c2; c3; c4]
  ∧ instantiated_ids t = core_id project_config <$> ["architect"; "codegen"; "qa"; "docs"]
  ∧ instantiated_configs t
    = [None; None; Some (core_config project_config "qa");
       Some (core_config project_config "docs")]
  ∧ (∀ ty, core_id project_config ty
           = default (PStr (ty +:+ "_agent")) (core_config project_config ty !! "agent_id"))
  ∧ ∀ ty k v,
      default ∅ (default ∅ (cfg_agents project_config) !! ty) !! k = Some v →
      core_config project_config ty !! k = Some v.
Proof.
  intros E1 E2 E3 E4 K1 K2 K3 K4 t. split; [|repeat split].
  - assert (bool_decide (PStr "architect" ∈ [PStr "qa"; PStr "docs"]) = false) as B1
      by (by vm_compute).
    assert (bool_decide (PStr "codegen" ∈ [PStr "qa"; PStr "docs"]) = false) as B2
      by (by vm_compute).
    assert (bool_decide (PStr "qa" ∈ [PStr "qa"; PStr "docs"]) = true) as B3
      by (by vm_compute).
    assert (bool_decide (PStr "docs" ∈ [PStr "qa"; PStr "docs"]) = true) as B4
      by (by vm_compute).
    unfold create_core_agents.
    rewrite (create_core_agents_step self project_config "architect" _ _ w c1 E1).
    cbv zeta. rewrite B1, K1.
    rewrite (create_core_agents_step self project_config "codegen" _ _ w1 c2 E2).
    cbv zeta. rewrite B2, K2.
    rewrite (create_core_agents_step self project_config "qa" _ _ w2 c3 E3).
    cbv zeta. rewrite B3, K3.
    rewrite (create_core_agents_step self project_config "docs" _ _ w3 c4 E4).
    cbv zeta. by rewrite B4, K4.
  - intros ty k v Hk. by rewrite core_config_lookup, Hk.
Qed.


(** *** The agents of a project *)





(** X20. A custom agent that bears the name of a core agent takes its
    place in the mapping [create_project_agents] returns: five agents are
    built, four names are returned, and under the shared name is the custom
    agent, the core agent built first being left out. *)
Theorem create_project_agents_custom_replaces_core
    (load_project_config : string → World → Outcome ProjectConfig)
    self (project_name : string) (project_config : ProjectConfig)
    (agent_name : string) config w w0 :
  load_project_config project_name w = Returned project_config w0 →
  cfg_custom_agents project_config = Some [(agent_name, config)] →
  agent_name ∈ ["architect"; "codegen"; "qa"; "docs"] →
  constructible self config →
  (∀ ty, ty ∈ ["architect"; "codegen"; "qa"; "docs"] → is_Some (registered self (PStr ty))) →
  (∀ cls id cfg w0, ∃ a w1, construct cls id cfg w0 = Returned a w1) →
  ∃ t_core w1 (core_agents : list (string * AgentRef)) cls id passed a w'
      (agents : list (string * AgentRef)),
    create_core_agents self project_config w0 = (t_core, Returned core_agents w1)
    ∧ length t_core = 4
    ∧ registered self (requested_type config) = Some cls
    ∧ construct cls id passed w1 = Returned a w'
    ∧ create_project_agents load_project_config self project_name w
      = (t_core ++ [Instantiate cls id passed], Returned agents w')
    ∧ agents.*1 = ["architect"; "codegen"; "qa"; "docs"]
    ∧ dict_get agent_name agents = Some a.
Proof.
  intros Hload Hcustom Hname [Htruthy [cls Hcls]] Hreg Hc.
  destruct (core_types_registered self Hreg) as (c1 & c2 & c3 & c4 & E1 & E2 & E3 & E4).
  destruct (create_core_agents_run self project_config w0 c1 c2 c3 c4 E1 E2 E3 E4 Hc)
    as (a1 & a2 & a3 & a4 & w1 & E).
  pose proof (create_agent_run self (requested_type config)
                (config ∪ default ∅ (cfg_common project_config)) cls w1 Hcls) as Erun.
  simpl in Erun.
  match type of Erun with _ = (_, construct cls ?id ?passed w1) =>
    destruct (Hc cls id passed w1) as (a & w' & Ea);
    eexists _, w1, _, cls, id, passed, a, w' end.
  rewrite Ea in Erun.
  eexists. split; [exact E|]. split; [done|]. split; [done|]. split; [exact Ea|].
  split.
  - unfold create_project_agents. unfold mbind, M_bind, bind.
    rewrite Hload. cbv beta iota zeta. rewrite E. cbv beta iota zeta.
    rewrite Hcustom. cbn [default from_option id create_custom_agents_loop].
    fold (requested_type config). rewrite Htruthy. cbn [negb].
    unfold mbind, M_bind, bind. rewrite Erun. unfold mret, M_ret, ret.
    cbn [app]. reflexivity.
  - rewrite dict_get_set, decide_True by done. split; [|done].
    rewrite dict_set_keys, decide_True; done.
Qed.

End FactoryProperties.

(** ** The further properties on the concrete systems *)

Lemma demo_invoke_keeps_history (c : Callback) (msg_data : @Envelope string) w0 w1 :
  final_world (invoke c msg_data w0).2 = Some w1 → message_history w1 = message_history w0.
Proof.
  destruct c as [f|a]; simpl.
  - by destruct (decide (f = 13)); simpl; intros [= <-].
  - unfold handle_message, try_except. unfold_M. simpl.
    destruct (decide (source msg_data = agent_id (agents w0 a))); simpl.
    + by intros [= <-].
    + destruct (decide (a = 7)); simpl; [by intros [= <-]|].
      by destruct (decide (a = 8)); simpl; intros [= <-].
Qed.

Lemma publish_then_get_history_witness :
  let msg_data := Build_Envelope (now demo_world3) "x" "src" "hi" in
  ∃ w', final_world (publish 5 "x" "hi" "src" demo_world3).2 = Some w'
        ∧ message_history w' = message_history demo_world3 ++ [msg_data]
        ∧ get_history None 1 w' = [msg_data]
        ∧ ("x" ≠ "" → get_history (Some "x") 1 w' = [msg_data]).
Proof.
  intros msg_data. eexists. split; [reflexivity|].
  apply (publish_then_get_history 5 "x" "hi" "src" demo_world3).
  - intros c m w0 w1. apply demo_invoke_keeps_history.
  - reflexivity.
Defined.

Lemma demo2_invoke_extends (c : Callback) (msg_data : @Envelope string) w0 w1 :
  final_world (@invoke _ _ demo2 c msg_data w0).2 = Some w1 → extends w0 w1.
Proof.
  destruct c as [f|a]; cbn -[subscribe].
  - destruct (decide (f = 21)); [|destruct (decide (f = 30))]; cbn -[subscribe].
    + destruct (subscribe_spec "x" (Coroutine 22) (log_call f w0)) as (w2 & E & _).
      pose proof (subscribe_extends _ _ _ _ _ E) as Hext.
      unfold outcome_of, mbind, M_bind, bind. rewrite E. simpl. intros [= <-].
      eapply extends_trans; [apply demo_log_call_extends|done].
    + destruct (subscribe_spec "loop" (Coroutine 30) (log_call f w0)) as (w2 & E & _).
      pose proof (subscribe_extends _ _ _ _ _ E) as Hext.
      unfold outcome_of, mbind, M_bind, bind. rewrite E. simpl. intros [= <-].
      eapply extends_trans; [apply demo_log_call_extends|done].
    + intros [= <-]. apply demo_log_call_extends.
  - unfold handle_message, try_except. unfold_M. simpl.
    destruct (decide (source msg_data = agent_id (agents w0 a))); simpl;
      intros [= <-]; [apply extends_refl | apply demo_log_call_extends].
Qed.

Lemma publish_serves_the_final_list_witness :
  ∃ t w',
    @publish _ _ demo2 3 "x" "hi" "src" demo_world4 = (t, Returned (demo_env "x" "src" "hi") w')
    ∧ subscribers_of "x" demo_world4 = [Coroutine 21]
    ∧ subscribers_of "x" w' = [Coroutine 21; Coroutine 22]
    ∧ deliveries t = (λ c, (c, demo_env "x" "src" "hi")) <$> subscribers_of "x" w'.
Proof.
  eexists _, _. split; [reflexivity|]. split; [reflexivity|]. split; [reflexivity|].
  eapply (@publish_serves_the_final_list _ _ demo2 3 "x" "hi" "src" demo_world4).
  - intros c m w0 w1. apply demo2_invoke_extends.
  - reflexivity.
Defined.

Lemma publish_never_ends_witness :
  (@publish _ _ demo2 10 "loop" "hi" "src" demo_world4).2 = Pending.
Proof.
  apply (@publish_never_ends _ _ demo2 10 "loop" "hi" "src" (λ c, c = Coroutine 30)
           demo_world4).
  - intros c m w0 -> HP. cbn -[subscribe].
    destruct (subscribe_spec "loop" (Coroutine 30) (log_call 30 w0)) as (w2 & E & Hl & _).
    unfold hook, outcome_of, mbind, M_bind, bind. cbn -[subscribe]. rewrite E. simpl.
    eexists _, w2. split; [done|].
    assert (subscribers_of "loop" w2 = subscribers_of "loop" w0 ++ [Coroutine 30]) as ->
      by (unfold subscribers_of at 1; by rewrite Hl).
    split.
    + rewrite length_app. simpl. lia.
    + apply Forall_app. split; [done|]. by constructor.
  - by repeat constructor.
  - done.
Defined.

Lemma get_history_newest_witness :
  get_history (Some "x") 5 demo_world2 = [demo_env "x" "a" "first"]
  ∧ length (get_history (Some "x") 5 demo_world2) = 1.
Proof. apply (get_history_newest (Some "x") 5 demo_world2). lia. Defined.

Lemma get_history_limit_not_positive_witness :
  get_history None 0 demo_world2 = drop 0 (message_history demo_world2)
  ∧ (0%Z = 0%Z → get_history None 0 demo_world2 = message_history demo_world2).
Proof. apply (get_history_limit_not_positive None 0 demo_world2). lia. Defined.

Lemma stop_keeps_the_bus_registrations_witness :
  ∃ w', stop 0 demo_world6 = ([OnStop 0], Returned tt w')
        ∧ is_running (agents w' 0) = false
        ∧ subscriptions (agents w' 0) = []
        ∧ subscribers w' = subscribers demo_world6.
Proof.
  apply (stop_keeps_the_bus_registrations 0 demo_world6).
  - reflexivity.
  - intros w0. by exists w0.
Defined.

Lemma stop_on_stop_raises_witness :
  ∃ w', @stop _ _ demo3 0 demo_world6
        = ([OnStop 0], Raised (OtherException "IOError" "disk full") w')
        ∧ is_running (agents w' 0) = false
        ∧ subscriptions (agents w' 0) = subscriptions (agents demo_world6 0)
        ∧ @stop _ _ demo3 0 w' = ([], Returned tt w').
Proof.
  apply (@stop_on_stop_raises _ _ demo3 0 demo_world6).
  - reflexivity.
  - intros w0. by exists w0.
Defined.

Lemma start_setup_subscriptions_raises_witness :
  ∃ w', @start _ _ demo3 0 demo_world
        = ([SetupSubscriptions 0], Raised (OtherException "RuntimeError" "no bus") w')
        ∧ is_running (agents w' 0) = true
        ∧ @start _ _ demo3 0 w' = ([], Returned tt w').
Proof.
  apply (@start_setup_subscriptions_raises _ _ demo3 0 demo_world).
  - reflexivity.
  - intros w0. by exists w0.
Defined.

Lemma restart_registers_again_witness :
  let topics := ["system.requirements_changed"; "development.feedback";
                 "performance.metrics"; "code.review_request"] in
  ∃ w', (@start _ _ demo2 0;; @stop _ _ demo2 0;; @start _ _ demo2 0) demo_world
        = ([SetupSubscriptions 0; OnStart 0; OnStop 0; SetupSubscriptions 0; OnStart 0],
           Returned tt w')
        ∧ (∀ topic, subscribers_of topic w'
             = subscribers_of topic demo_world
               ++ replicate (2 * occurrences topic topics) (HandleMessage 0))
        ∧ subscriptions (agents w' 0) = topics
        ∧ is_running (agents w' 0) = true.
Proof.
  apply (@restart_registers_again _ _ demo2 0).
  - reflexivity.
  - intros w0. reflexivity.
  - intros w0. by exists w0.
  - intros w0. by exists w0.
Defined.

(** After the restart the architect's handler is twice on each of its
    topics. *)
Example restart_example :
  ∃ t w', (@start _ _ demo2 0;; @stop _ _ demo2 0;; @start _ _ demo2 0) demo_world
          = (t, Returned tt w')
    ∧ subscribers_of "development.feedback" w' = [HandleMessage 0; HandleMessage 0].
Proof. eexists _, _. split; vm_compute; reflexivity. Qed.


Lemma publish_message_same_identifier_witness :
  let msg_data := Build_Envelope (now demo_world5) "x" "idle" "hi" in
  publish_message 2 0 "x" "hi" demo_world5
  = ([Delivered (HandleMessage 0) msg_data; Delivered (HandleMessage 1) msg_data],
     Returned tt (append_history msg_data demo_world5)).
Proof.
  apply (publish_message_same_identifier 2 0 "x" "hi" [HandleMessage 0; HandleMessage 1]
           demo_world5).
  - reflexivity.
  - intros c Hc. repeat (apply elem_of_cons in Hc as [->|Hc]);
      [by eexists | by eexists | by apply elem_of_nil in Hc].
  - simpl. lia.
Defined.

Lemma demo_construct_returns (cls : AgentClass) (id : PyVal)
    (cfg : option (gmap string PyVal)) (w0 : @World string (list nat)) :
  ∃ a w1, construct cls id cfg w0 = Returned a w1.
Proof. by eexists _, _. Qed.

Lemma demo_core_registered (ty : string) :
  ty ∈ ["architect"; "codegen"; "qa"; "docs"] → is_Some (registered AgentFactory_init (PStr ty)).
Proof.
  intros Hty. repeat (apply elem_of_cons in Hty as [->|Hty]); try (by eexists).
  by apply elem_of_nil in Hty.
Qed.



Lemma create_core_agents_builds_four_witness :
  let t := [Instantiate ArchitectAgent (core_id demo_project "architect") None;
            Instantiate CodeGeneratorAgent (core_id demo_project "codegen") None;
            Instantiate QAAgent (core_id demo_project "qa")
              (Some (core_config demo_project "qa"));
            Instantiate DocumentationAgent (core_id demo_project "docs")
              (Some (core_config demo_project "docs"))] in
  (∃ w', create_core_agents AgentFactory_init demo_project demo_world
         = (t, Returned [("architect", 0); ("codegen", 1); ("qa", 2); ("docs", 3)] w'))
  ∧ instantiated_classes t = [ArchitectAgent; CodeGeneratorAgent; QAAgent; DocumentationAgent]
  ∧ instantiated_ids t = [PStr "shop"; PStr "shop"; PStr "shop"; PStr "shop"]
  ∧ core_config demo_project "qa" !! "test_timeout" = Some (PNum 60).
Proof.
  intros t.
  destruct (construct ArchitectAgent (core_id demo_project "architect") None demo_world)
    as [a1 w1|e w1|] eqn:K1; [|vm_compute in K1; discriminate..].
  destruct (construct CodeGeneratorAgent (core_id demo_project "codegen") None w1)
    as [a2 w2|e w2|] eqn:K2; [|vm_compute in K2; discriminate..].
  destruct (construct QAAgent (core_id demo_project "qa")
              (Some (core_config demo_project "qa")) w2)
    as [a3 w3|e w3|] eqn:K3; [|vm_compute in K3; discriminate..].
  destruct (construct DocumentationAgent (core_id demo_project "docs")
              (Some (core_config demo_project "docs")) w3)
    as [a4 w4|e w4|] eqn:K4; [|vm_compute in K4; discriminate..].
  destruct (create_core_agents_builds_four AgentFactory_init demo_project
              ArchitectAgent CodeGeneratorAgent QAAgent DocumentationAgent
              a1 a2 a3 a4 demo_world w1 w2 w3 w4
              eq_refl eq_refl eq_refl eq_refl K1 K2 K3 K4)
    as (E & Hcls & _ & _ & _ & Hmerge).
  assert (a1 = 0) as -> by (vm_compute in K1; congruence).
  assert (a2 = 1) as -> by (vm_compute in K2; congruence).
  assert (a3 = 2) as -> by (vm_compute in K3; congruence).
  assert (a4 = 3) as -> by (vm_compute in K4; congruence).
  split; [by exists w4|]. split; [exact Hcls|]. split.
  - vm_compute. reflexivity.
  - apply (Hmerge "qa" "test_timeout" (PNum 60)). vm_compute. reflexivity.
Defined.

(** The QA agent's own timeout wins over the common one, and the common
    identifier is taken where there is no other. *)
Example core_config_example :
  core_config demo_project "qa" !! "test_timeout" = Some (PNum 60)
  ∧ core_config demo_project "docs" !! "test_timeout" = Some (PNum 30)
  ∧ core_id demo_project "qa" = PStr "shop"
  ∧ core_id (Build_ProjectConfig None None None) "qa" = PStr "qa_agent".
Proof. by vm_compute. Qed.



(** In the depot project the four core agents and then the designer, an
    architect, are built before the auditor is found to have no type. *)
Example create_project_agents_fails_example :
  ∃ t w',
    create_project_agents demo_load3 AgentFactory_init "depot" demo_world
    = (t, Raised (ValueError "Custom agent 'auditor' missing 'type' field") w')
    ∧ instantiated_classes t
      = [ArchitectAgent; CodeGeneratorAgent; QAAgent; DocumentationAgent; ArchitectAgent]
    ∧ instantiated_ids t
      = [PStr "architect_agent"; PStr "codegen_agent"; PStr "qa_agent"; PStr "docs_agent";
         PStr "architect_agent"].
Proof. eexists _, _. split; [vm_compute; reflexivity|]. split; reflexivity. Qed.

Lemma create_project_agents_custom_replaces_core_witness :
  ∃ t_core w1 (core_agents : list (string * AgentRef)) cls id passed a w'
      (agents : list (string * AgentRef)),
    create_core_agents AgentFactory_init demo_project2 demo_world
    = (t_core, Returned core_agents w1)
    ∧ length t_core = 4
    ∧ registered AgentFactory_init
        (requested_type ({[ "type" := PStr "architect" ]} : gmap string PyVal)) = Some cls
    ∧ construct cls id passed w1 = Returned a w'
    ∧ create_project_agents demo_load AgentFactory_init "lab" demo_world
      = (t_core ++ [Instantiate cls id passed], Returned agents w')
    ∧ agents.*1 = ["architect"; "codegen"; "qa"; "docs"]
    ∧ dict_get "qa" agents = Some a.
Proof.
  apply (create_project_agents_custom_replaces_core demo_load AgentFactory_init "lab"
           demo_project2 "qa" {[ "type" := PStr "architect" ]} demo_world demo_world).
  - reflexivity.
  - reflexivity.
  - set_solver.
  - split; [reflexivity|]. by eexists.
  - apply demo_core_registered.
  - apply demo_construct_returns.
Defined.

(** In the lab project the name ["qa"] ends up with the architect built for
    the custom entry (address 0), not with the QA agent (address 2). *)
Example create_project_agents_example :
  ∃ t w',
    create_project_agents demo_load AgentFactory_init "lab" demo_world
    = (t, Returned [("architect", 0); ("codegen", 1); ("qa", 0); ("docs", 3)] w')
    ∧ length t = 5.
Proof. by eexists _, _. Qed.
